(** * deck.gl-particle: the particle layer's transform-feedback engine

    A shallow embedding of [src/particle-layer.js].

    - JavaScript numbers are read as real numbers ([R]): [Math.sin],
      [Math.atan2], [**] and friends denote the mathematical functions.
      Integer-valued quantities that size buffers (numParticles, maxAge,
      byte offsets) are integers ([Z]).
    - A luma.gl [Buffer] is a handle into a store of byte sequences owned by
      the GL context; [Float32Array] contents are laid out as 4 bytes per
      element.
    - Methods of the layer are computations in a state-and-exception monad
      [JS] over the world (GL store, [this.state], redraw flag, the ambient
      [Math.random] source, and the log of kernel invocations).
      [this.props] and [this.context] are owned by the host framework and only
      read by the layer; they are explicit arguments. *)

From Stdlib Require Import Reals Lra ZArith List Lia.
From Stdlib Require Import Strings.Byte.
From stdpp Require Import gmap list.

(** ** Geodesy: the numeric helpers of the module *)

Module Geodesy.
Local Open Scope R_scope.

(** [const EARTH_RADIUS = 6370972] *)
Definition EARTH_RADIUS : R := 6370972.

(** A JavaScript array [[lng, lat]]: index 0 is [fst], index 1 is [snd]. *)
Definition Point : Type := R * R.

(** [Math.atan2(y, x)] on real numbers. *)
Definition atan2 (y x : R) : R :=
  if Rlt_dec 0 x then atan (y / x)
  else if Rlt_dec x 0 then
    (if Rle_dec 0 y then atan (y / x) + PI else atan (y / x) - PI)
  else if Rlt_dec 0 y then PI / 2
  else if Rlt_dec y 0 then - (PI / 2)
  else 0.

(** [function distanceTo(from, point)] (lines 22-35). *)
Definition distanceTo (from point : Point) : R :=
  let phi1 := snd from * PI / 180 in
  let lam1 := fst from * PI / 180 in
  let phi2 := snd point * PI / 180 in
  let lam2 := fst point * PI / 180 in
  let dphi := phi2 - phi1 in
  let dlam := lam2 - lam1 in
  let a := sin (dphi / 2) * sin (dphi / 2)
           + cos phi1 * cos phi2 * sin (dlam / 2) * sin (dlam / 2) in
  let c := 2 * atan2 (sqrt a) (sqrt (1 - a)) in
  let d := EARTH_RADIUS * c in
  d.

(** The haversine formula as the specification words it, on angles in
    radians: a = sin²(Δφ/2) + cos φ1 · cos φ2 · sin²(Δλ/2),
    c = 2 · atan2(√a, √(1−a)), distance = R · c with R = 6,370,972 m. *)
Definition haversine_a (phi1 lam1 phi2 lam2 : R) : R :=
  (sin ((phi2 - phi1) / 2))² + cos phi1 * cos phi2 * (sin ((lam2 - lam1) / 2))².

Definition central_angle (a : R) : R := 2 * atan2 (sqrt a) (sqrt (1 - a)).

Definition haversine (radius phi1 lam1 phi2 lam2 : R) : R :=
  radius * central_angle (haversine_a phi1 lam1 phi2 lam2).

Definition radians (deg : R) : R := deg * PI / 180.

(** [Math.max(a, b, c)] *)
Definition Math_max3 (a b c : R) : R := Rmax (Rmax a b) c.

(** [2 ** x] *)
Definition pow2 (x : R) : R := Rpower 2 x.

End Geodesy.

(** ** Typed arrays: the bytes of a [Float32Array] *)

Module Float32.

(** [Float32Array.BYTES_PER_ELEMENT] *)
Definition BYTES_PER_ELEMENT : nat := 4.

Definition byte_of_N (n : N) : byte := default x00 (Byte.of_N (n mod 256)).

(** A 32-bit word in memory, least significant byte first. *)
Definition le32 (w : N) : list byte :=
  [byte_of_N w; byte_of_N (w / 2 ^ 8); byte_of_N (w / 2 ^ 16); byte_of_N (w / 2 ^ 24)].

(** The IEEE-754 binary32 bit pattern of a non-negative integer, rounding to
    nearest, ties to even, when the integer needs more than 24 significant
    bits (integers below 2^24, hence every age, are stored exactly). *)
Definition f32_bits (n : N) : N :=
  match n with
  | N0 => 0
  | _ =>
    let e := N.log2 n in
    if (e <=? 23)%N then
      N.shiftl (e + 127) 23 + N.shiftl (n - 2 ^ e) (23 - e)
    else
      let sh := (e - 23)%N in
      let q := N.shiftr n sh in
      let r := (n mod 2 ^ sh)%N in
      let half := (2 ^ (sh - 1))%N in
      let up := if (half <? r)%N then true
                else if (r =? half)%N then N.odd q else false in
      N.shiftl (e + 127) 23 + (q - 2 ^ 23) + (if up then 1 else 0)
  end%N.

(** The four bytes a [Float32Array] holds for the number [z] (an index or a
    count, never negative in this program). *)
Definition f32_of_Z (z : Z) : list byte := le32 (f32_bits (Z.to_N z)).

(** [new Float32Array(array)]: one element per entry. *)
Definition from_list (l : list Z) : list byte := concat (map f32_of_Z l).

(** The zero-filled contents of [new Float32Array(len)]. *)
Definition zeros (len : nat) : list byte := replicate (BYTES_PER_ELEMENT * len) x00.

(** Element [i] of the [Float32Array] view of a byte sequence. *)
Definition f32_at (b : list byte) (i : nat) : list byte :=
  take BYTES_PER_ELEMENT (drop (BYTES_PER_ELEMENT * i) b).

(** Number of whole elements in the view. *)
Definition f32_length (b : list byte) : nat := length b / BYTES_PER_ELEMENT.

Definition f32_zero : list byte := [x00; x00; x00; x00].

(** Reading back: the 32-bit word of four little-endian bytes, and the
    integer a binary32 bit pattern denotes when it denotes a non-negative
    integer (sign 0, exponent field [e], fraction [m]:
    (2^23 + m) * 2^(e - 150) for a normal number). *)
Definition word_of_bytes (b : list byte) : option N :=
  match b with
  | [b0; b1; b2; b3] =>
      Some (Byte.to_N b0 + 2 ^ 8 * Byte.to_N b1 + 2 ^ 16 * Byte.to_N b2
            + 2 ^ 24 * Byte.to_N b3)%N
  | _ => None
  end.

Definition Z_of_bits (w : N) : option Z :=
  let e := (w / 2 ^ 23)%N in
  let m := (w mod 2 ^ 23)%N in
  if (w =? 0)%N then Some 0%Z
  else if (e =? 0)%N || (255 <=? e)%N then None
  else if (150 <=? e)%N then Some (Z.of_N ((2 ^ 23 + m) * 2 ^ (e - 150)))
  else if ((2 ^ 23 + m) mod 2 ^ (150 - e) =? 0)%N
       then Some (Z.of_N ((2 ^ 23 + m) / 2 ^ (150 - e)))
       else None.

Definition to_Z (b : list byte) : option Z :=
  match word_of_bytes b with
  | Some w => Z_of_bits w
  | None => None
  end.

End Float32.

(** ** The world: GL buffer store, layer state, ambient sources *)

(** A shader output / vertex attribute of type [vec3]: three 32-bit floats,
    each kept as its four bytes. *)
Record Vec3 := mkVec3 {
  vx : byte * byte * byte * byte;
  vy : byte * byte * byte * byte;
  vz : byte * byte * byte * byte }.

Definition f32_bytes (w : byte * byte * byte * byte) : list byte :=
  let '(b0, b1, b2, b3) := w in [b0; b1; b2; b3].

Definition Vec3_bytes (v : Vec3) : list byte :=
  f32_bytes (vx v) ++ f32_bytes (vy v) ++ f32_bytes (vz v).

(** Bytes per position record: [size: 3] floats of 4 bytes, the
    [4 * 3] of the source. *)
Definition VEC3_BYTES : nat := 12.

(** The GL context's resources. [buffers] maps the handle of every live
    buffer object to its data store; [freeBytes] is what remains of the
    memory that buffer allocation may use. *)
Record GPU := mkGPU {
  buffers : gmap nat (list byte);
  nextHandle : nat;
  freeBytes : nat }.

(** One entry of [transform.bufferTransform.bindings]. *)
Record Binding := mkBinding {
  sourcePosition : nat;    (* sourceBuffers.sourcePosition *)
  targetPosition : nat }.  (* feedbackBuffers.targetPosition *)

(** A luma.gl [Transform] with a feedback map: two bindings with the buffer
    roles exchanged, and the index of the current one. *)
Record Transform := mkTransform {
  bindings : list Binding;
  currentIndex : nat;
  elementCount : Z }.

(** [this.state]; [None] is JavaScript's [undefined]. [initialized] is only
    ever tested for truthiness, so [undefined] is [false]. *)
Record LayerState := mkLayerState {
  initialized : bool;
  numInstances : option Z;
  numAgedInstances : option Z;
  sourcePositions : option nat;
  targetPositions : option nat;
  ages : option nat;
  transform : option Transform }.

Definition initialLayerState : LayerState :=
  mkLayerState false None None None None None None.

Inductive Exn := TypeError | RangeError | OutOfMemory.

Inductive completion (A : Type) :=
  | Normal (a : A)
  | Throw (e : Exn).
Arguments Normal {A} a.
Arguments Throw {A} e.

Section Layer.

(** The type of the velocity-field texture ([props.image]). *)
Context {Texture : Type}.

(** [viewport]: the fields and methods the layer reads. *)
Record Viewport := mkViewport {
  resolution : option R;
  longitude : R;
  latitude : R;
  width : R;
  height : R;
  zoom : R;
  unproject : R * R -> Geodesy.Point;
  getBounds : R * R * R * R }.

(** [this.context]: [viewport], [timeline.getTime()] and
    [gl.luma.canvasSizeInfo.devicePixelRatio]. *)
Record Context := mkContext {
  viewport : Viewport;
  timeline_getTime : R;
  devicePixelRatio : R }.

(** [this.props] *)
Record Props := mkProps {
  image : option Texture;
  bounds : R * R * R * R;
  numParticles : Z;
  maxAge : Z;
  speedFactor : R;
  animate : bool }.

(** The [uniforms] object of [_runTransformFeedback] (lines 229-243). *)
Record Uniforms := mkUniforms {
  u_speedTexture : Texture;
  u_bounds : R * R * R * R;
  u_numParticles : Z;
  u_maxAge : Z;
  u_viewportSphere : Z;
  u_viewportSphereCenter : Geodesy.Point;
  u_viewportSphereRadius : R;
  u_viewportBounds : R * R * R * R;
  u_viewportSpeedFactor : R;
  u_time : R;
  u_seed : R }.

(** The vertex shader [particle-layer-update-transform.vs.glsl]. Run once per
    vertex, it maps the uniforms, [gl_VertexID] and the bytes of the vertex's
    [sourcePosition] attribute to the captured [targetPosition]. Its text is
    not in [particle-layer.js]; the development is parametric in it. *)
Context (updateTransformVs : Uniforms -> nat -> list byte -> Vec3).

(** [randomSource] is the ambient [Math.random] sequence and [randomDraws]
    how many numbers have been drawn from it; [kernelLog] lists the uniforms
    of every [transform.run], most recent first. *)
Record World := mkWorld {
  gpu : GPU;
  state : LayerState;
  needsRedraw : bool;
  randomSource : nat -> R;
  randomDraws : nat;
  kernelLog : list Uniforms }.

(** *** The monad of method bodies *)

Definition JS (A : Type) : Type := World -> completion A * World.

Definition ret {A} (a : A) : JS A := fun w => (Normal a, w).

Definition bind {A B} (m : JS A) (k : A -> JS B) : JS B :=
  fun w => match m w with
           | (Normal a, w') => k a w'
           | (Throw e, w') => (Throw e, w')
           end.

Definition throw {A} (e : Exn) : JS A := fun w => (Throw e, w).

Notation "x <- m ;; k" := (bind m (fun x => k))
  (at level 100, m at next level, right associativity, only parsing).
Notation "m ;;; k" := (bind m (fun _ => k))
  (at level 100, right associativity, only parsing).

Definition getState : JS LayerState := fun w => (Normal (state w), w).

Definition getGPU : JS GPU := fun w => (Normal (gpu w), w).

Definition putGPU (g : GPU) : JS unit := fun w =>
  (Normal tt, mkWorld g (state w) (needsRedraw w) (randomSource w) (randomDraws w) (kernelLog w)).

(** [this.setState(...)] of deck.gl's [Layer]: merges into [this.state] and
    ends with [this.setNeedsRedraw()]. *)
Definition setState (f : LayerState -> LayerState) : JS unit := fun w =>
  (Normal tt, mkWorld (gpu w) (f (state w)) true (randomSource w) (randomDraws w) (kernelLog w)).

(** A mutation of an object that [this.state] holds, made by a method of
    that object and not through [setState]. *)
Definition mutateState (f : LayerState -> LayerState) : JS unit := fun w =>
  (Normal tt, mkWorld (gpu w) (f (state w)) (needsRedraw w) (randomSource w) (randomDraws w) (kernelLog w)).

(** [this.setNeedsRedraw()] *)
Definition setNeedsRedraw : JS unit := fun w =>
  (Normal tt, mkWorld (gpu w) (state w) true (randomSource w) (randomDraws w) (kernelLog w)).

(** [Math.random()]: the next number of the ambient source. *)
Definition Math_random : JS R := fun w =>
  (Normal (randomSource w (randomDraws w)),
   mkWorld (gpu w) (state w) (needsRedraw w) (randomSource w) (S (randomDraws w)) (kernelLog w)).

Definition logKernelRun (u : Uniforms) : JS unit := fun w =>
  (Normal tt, mkWorld (gpu w) (state w) (needsRedraw w) (randomSource w) (randomDraws w) (u :: kernelLog w)).

(** Reading a property or calling a method of a value that may be
    [undefined] throws a TypeError. *)
Definition deref {A} (o : option A) : JS A :=
  match o with
  | Some a => ret a
  | None => throw TypeError
  end.

Definition modifyGPU (f : GPU -> GPU) : JS unit :=
  g <- getGPU ;; putGPU (f g).

(** *** JavaScript built-ins *)

(** [new Float32Array(length)]: zero-filled; a negative length is a
    RangeError. *)
Definition new_Float32Array (len : Z) : JS (list byte) :=
  if (len <? 0)%Z then throw RangeError
  else ret (Float32.zeros (Z.to_nat len)).

(** [new Array(length)]: [length] holes; a length outside [0, 2^32 - 1] is a
    RangeError. *)
Definition new_Array (len : Z) : JS (list unit) :=
  if ((len <? 0) || (2 ^ 32 - 1 <? len))%Z then throw RangeError
  else ret (replicate (Z.to_nat len) tt).

(** [array.fill(v)] *)
Definition Array_fill {A B} (l : list A) (v : B) : list B := map (fun _ => v) l.

(** [array.map((x, i) => f(x, i))], the callback being a computation;
    [i] is the index of the first element of [l]. *)
Fixpoint Array_map {A B} (f : A -> Z -> JS B) (l : list A) (i : Z) : JS (list B) :=
  match l with
  | [] => ret []
  | x :: l' =>
      y <- f x i ;;
      ys <- Array_map f l' (i + 1)%Z ;;
      ret (y :: ys)
  end.

(** *** luma.gl: [Buffer] *)

(** [new Buffer(gl, data)]: a fresh buffer object holding [data]. Exhausting
    the memory available to buffers is surfaced as an exception. *)
Definition GPU_alloc (data : list byte) (g : GPU) : GPU :=
  mkGPU (<[nextHandle g := data]> (buffers g)) (S (nextHandle g))
        (freeBytes g - length data).

Definition new_Buffer (data : list byte) : JS nat :=
  g <- getGPU ;;
  if (length data <=? freeBytes g)%nat then
    putGPU (GPU_alloc data g) ;;;
    ret (nextHandle g)
  else throw OutOfMemory.

(** [buffer.delete()]: releases the data store; deleting a buffer that is
    already deleted does nothing. *)
Definition GPU_delete (h : nat) (g : GPU) : GPU :=
  match buffers g !! h with
  | Some d => mkGPU (delete h (buffers g)) (nextHandle g) (freeBytes g + length d)
  | None => g
  end.

Definition Buffer_delete (h : nat) : JS unit := modifyGPU (GPU_delete h).

(** The bytes of [wr] with [data] written over them from byte [offset]. *)
Definition overwrite (wr : list byte) (offset : nat) (data : list byte) : list byte :=
  take offset wr ++ data ++ drop (offset + length data) wr.

(** [dst.copyData({sourceBuffer: src, readOffset, writeOffset, size})], i.e.
    [gl.copyBufferSubData]: offsets and size are in bytes. A negative
    argument, a range outside either data store, or overlapping ranges within
    one buffer raise a GL error and copy nothing. *)
Definition GPU_copyData (dst src : nat) (readOffset writeOffset size : Z) (g : GPU) : GPU :=
  match buffers g !! src, buffers g !! dst with
  | Some rd, Some wr =>
      if ((0 <=? readOffset) && (0 <=? writeOffset) && (0 <=? size)
          && (readOffset + size <=? Z.of_nat (length rd))
          && (writeOffset + size <=? Z.of_nat (length wr))
          && negb ((dst =? src)%nat && (readOffset <? writeOffset + size)
                   && (writeOffset <? readOffset + size)))%Z
      then
        let chunk := take (Z.to_nat size) (drop (Z.to_nat readOffset) rd) in
        mkGPU (<[dst := overwrite wr (Z.to_nat writeOffset) chunk]> (buffers g))
              (nextHandle g) (freeBytes g)
      else g
  | _, _ => g
  end.

Definition Buffer_copyData (dst src : nat) (readOffset writeOffset size : Z) : JS unit :=
  modifyGPU (GPU_copyData dst src readOffset writeOffset size).

(** [dst.subData({data})], i.e. [gl.bufferSubData] at offset 0. Data longer
    than the data store raises a GL error and writes nothing. *)
Definition GPU_subData (dst : nat) (data : list byte) (g : GPU) : GPU :=
  match buffers g !! dst with
  | Some wr =>
      if (length data <=? length wr)%nat then
        mkGPU (<[dst := overwrite wr 0 data]> (buffers g)) (nextHandle g) (freeBytes g)
      else g
  | None => g
  end.

Definition Buffer_subData (dst : nat) (data : list byte) : JS unit :=
  modifyGPU (GPU_subData dst data).

(** *** luma.gl: [Transform] *)

(** [new Transform(gl, {sourceBuffers, feedbackBuffers, feedbackMap, vs,
    elementCount})]: with a feedback map, the second binding exchanges the
    roles of the two buffers. *)
Definition new_Transform (sourcePositions targetPositions : nat) (count : Z) : Transform :=
  mkTransform [mkBinding sourcePositions targetPositions;
               mkBinding targetPositions sourcePositions] 0 count.

(** What transform feedback captures: the shader's output for vertices
    [0 .. n-1], each reading its own 12 attribute bytes. *)
Definition feedbackOutput (u : Uniforms) (n : nat) (src : list byte) : list byte :=
  flat_map (fun id => Vec3_bytes (updateTransformVs u id
                        (take VEC3_BYTES (drop (VEC3_BYTES * id) src))))
           (seq 0 n).

(** [transform.run({uniforms})]: runs the shader over [elementCount] vertices
    of the current binding and captures the output at the start of the
    feedback buffer. Buffers too small for [elementCount] vertices, or
    deleted, raise a GL error and nothing is written. *)
Definition GPU_feedback (b : Binding) (count : Z) (u : Uniforms) (g : GPU) : GPU :=
  match buffers g !! sourcePosition b, buffers g !! targetPosition b with
  | Some src, Some fb =>
      let n := Z.to_nat count in
      if ((VEC3_BYTES * n <=? length src) && (VEC3_BYTES * n <=? length fb))%nat then
        mkGPU (<[targetPosition b := overwrite fb 0 (feedbackOutput u n src)]> (buffers g))
              (nextHandle g) (freeBytes g)
      else g
  | _, _ => g
  end.

Definition Transform_run (tr : Transform) (u : Uniforms) : JS unit :=
  b <- deref (bindings tr !! currentIndex tr) ;;
  logKernelRun u ;;;
  modifyGPU (GPU_feedback b (elementCount tr) u).

(** [transform.swap()]: the transform object is only reachable through
    [this.state.transform], where the new index is stored. *)
Definition Transform_swap (tr : Transform) : JS unit :=
  mutateState (fun st =>
    mkLayerState (initialized st) (numInstances st) (numAgedInstances st)
                 (sourcePositions st) (targetPositions st) (ages st)
                 (Some (mkTransform (bindings tr) ((currentIndex tr + 1) mod 2)
                                    (elementCount tr)))).

(** [transform.delete()]: releases the program; the two position buffers
    were supplied by the caller and are not touched. *)
Definition Transform_delete (tr : Transform) : JS unit := ret tt.

(** ** The layer (class [ParticleLayer]) *)

(** JavaScript truthiness of a number that may be [undefined]. *)
Definition truthy (o : option R) : bool :=
  match o with
  | Some r => if Req_dec_T r 0 then false else true
  | None => false
  end.

(** Lines 200-206: the locals [viewportSphere], [viewportSphereCenter] and
    [viewportSphereRadius]. *)
Definition viewportSphere (vp : Viewport) : Z :=
  if truthy (resolution vp) then 1 else 0.

Definition viewportSphereCenter (vp : Viewport) : Geodesy.Point :=
  (longitude vp, latitude vp).

Definition viewportSphereRadius (vp : Viewport) : R :=
  Geodesy.Math_max3
    (Geodesy.distanceTo (viewportSphereCenter vp) (unproject vp (0, 0)%R))
    (Geodesy.distanceTo (viewportSphereCenter vp) (unproject vp (width vp / 2, 0)%R))
    (Geodesy.distanceTo (viewportSphereCenter vp) (unproject vp (0, height vp / 2)%R)).

(** Lines 207-211: [viewport.getBounds()] with the latitudes clamped. *)
Definition viewportBounds (vp : Viewport) : R * R * R * R :=
  let '(b0, b1, b2, b3) := getBounds vp in
  (b0, Rmax b1 (-85.051129), b2, Rmin b3 85.051129)%R.

(** Lines 213-215: the speed factor for the current zoom level. *)
Definition viewportSpeedFactor (props : Props) (ctx : Context) : R :=
  (speedFactor props * devicePixelRatio ctx / Geodesy.pow2 (zoom (viewport ctx)))%R.

(** Lines 229-243: the uniforms of one run, [seed] being the number drawn
    from [Math.random()]. *)
Definition frameUniforms (img : Texture) (props : Props) (ctx : Context) (seed : R) : Uniforms :=
  {| u_speedTexture := img;
     u_bounds := bounds props;
     u_numParticles := numParticles props;
     u_maxAge := maxAge props;
     u_viewportSphere := viewportSphere (viewport ctx);
     u_viewportSphereCenter := viewportSphereCenter (viewport ctx);
     u_viewportSphereRadius := viewportSphereRadius (viewport ctx);
     u_viewportBounds := viewportBounds (viewport ctx);
     u_viewportSpeedFactor := viewportSpeedFactor props ctx;
     u_time := timeline_getTime ctx;
     u_seed := seed |}.

(** [_deleteTransformFeedback()] (lines 251-270). *)
Definition _deleteTransformFeedback : JS unit :=
  st <- getState ;;
  if negb (initialized st) then ret tt
  else
    sp <- deref (sourcePositions st) ;;
    Buffer_delete sp ;;;
    tp <- deref (targetPositions st) ;;
    Buffer_delete tp ;;;
    ag <- deref (ages st) ;;
    Buffer_delete ag ;;;
    tr <- deref (transform st) ;;
    Transform_delete tr ;;;
    setState (fun st =>
      {| initialized := true;
         numInstances := numInstances st;
         numAgedInstances := numAgedInstances st;
         sourcePositions := None;
         targetPositions := None;
         ages := None;
         transform := None |}).

(** Lines 160-162: the array
    [new Array(maxAge).fill(undefined).map((_, age) =>
       new Array(numParticles).fill(age)).flat()]. *)
Definition agesArray (props : Props) : JS (list Z) :=
  holes <- new_Array (maxAge props) ;;
  rows <- Array_map (fun (_ : unit) (age : Z) =>
                       row <- new_Array (numParticles props) ;;
                       ret (Array_fill row age))
                    (Array_fill holes tt) 0%Z ;;
  ret (concat rows).

(** Lines 151-188 of [_setupTransformFeedback()]: the allocation of the
    buffers and of the transform, and the final [setState]. *)
Definition _setupTransformFeedback_allocate (props : Props) : JS unit :=
  let numInstances' := (numParticles props * maxAge props)%Z in
  let numAgedInstances' := (numParticles props * (maxAge props - 1))%Z in
  data1 <- new_Float32Array (numInstances' * 3) ;;
  sourcePositions' <- new_Buffer data1 ;;
  data2 <- new_Float32Array (numInstances' * 3) ;;
  targetPositions' <- new_Buffer data2 ;;
  arr <- agesArray props ;;
  ages' <- new_Buffer (Float32.from_list arr) ;;
  let transform' := new_Transform sourcePositions' targetPositions' numInstances' in
  setState (fun _ =>
    {| initialized := true;
       numInstances := Some numInstances';
       numAgedInstances := Some numAgedInstances';
       sourcePositions := Some sourcePositions';
       targetPositions := Some targetPositions';
       ages := Some ages';
       transform := Some transform' |}).

(** [_setupTransformFeedback()] (lines 142-189): release what is there
    (lines 147-149), then allocate. *)
Definition _setupTransformFeedback (props : Props) : JS unit :=
  st <- getState ;;
  (if initialized st then _deleteTransformFeedback else ret tt) ;;;
  _setupTransformFeedback_allocate props.

(** [_runTransformFeedback()] (lines 191-249). An [undefined]
    [numAgedInstances] would make the copy size NaN, which WebGL reads as 0. *)
Definition _runTransformFeedback (props : Props) (ctx : Context) : JS unit :=
  st <- getState ;;
  match image props with
  | None => ret tt
  | Some img =>
      tr <- deref (transform st) ;;
      b <- deref (bindings tr !! currentIndex tr) ;;
      let sourcePositions' := sourcePosition b in
      let targetPositions' := targetPosition b in
      Buffer_copyData sourcePositions' targetPositions'
        0 (numParticles props * 4 * 3) (default 0%Z (numAgedInstances st) * 4 * 3) ;;;
      seed <- Math_random ;;
      Transform_run tr (frameUniforms img props ctx seed) ;;;
      Transform_swap tr
  end.

(** [initializeState()], [updateState({props, oldProps})],
    [finalizeState()]: the statements of this class that concern the
    buffers. The calls into the base layer ([super.initializeState],
    [super.updateState], [super.finalizeState]) and the attribute manager
    belong to the host and are not modelled, so these three definitions say
    what the layer's own statements do, not what the whole host call does. *)
Definition initializeState (props : Props) : JS unit :=
  _setupTransformFeedback props.

Definition updateState (props oldProps : Props) : JS unit :=
  if (negb (numParticles props =? numParticles oldProps)
      || negb (maxAge props =? maxAge oldProps))%Z
  then _setupTransformFeedback props
  else ret tt.

Definition finalizeState : JS unit := _deleteTransformFeedback.

(** The attribute table that [draw()] hands to [model.setAttributes]
    (lines 130-134). *)
Record Attributes := mkAttributes {
  instanceSourcePositions : option nat;
  instanceTargetPositions : option nat;
  instanceAges : option nat }.

(** [draw()] (lines 122-134). [this.state] is read first (line 124), the
    pass runs when [animate] is set, and the buffers read at line 124 are
    bound as the instance attributes; the value is that table. The [model]
    of the base layer, its uniforms and [super.draw] belong to the host and
    are not modelled. *)
Definition draw (props : Props) (ctx : Context) : JS Attributes :=
  st <- getState ;;
  (if animate props then _runTransformFeedback props ctx else ret tt) ;;;
  ret (mkAttributes (sourcePositions st) (targetPositions st) (ages st)).

(** [step()] (lines 272-276). *)
Definition step (props : Props) (ctx : Context) : JS unit :=
  _runTransformFeedback props ctx ;;;
  setNeedsRedraw.

(** [clear()] (lines 278-285). An [undefined] [numInstances] would make the
    length NaN, for which [new Float32Array] gives an empty array. *)
Definition clear : JS unit :=
  st <- getState ;;
  let len := (default 0 (numInstances st) * 3)%Z in
  sp <- deref (sourcePositions st) ;;
  data1 <- new_Float32Array len ;;
  Buffer_subData sp data1 ;;;
  tp <- deref (targetPositions st) ;;
  data2 <- new_Float32Array len ;;
  Buffer_subData tp data2 ;;;
  setNeedsRedraw.

(** Calls the host may make between activation and teardown, and a sequence
    of them. *)
Inductive Call :=
  | CallStep (props : Props) (ctx : Context)
  | CallDraw (props : Props) (ctx : Context)
  | CallUpdate (props oldProps : Props)
  | CallClear.

Definition perform (c : Call) : JS unit :=
  match c with
  | CallStep props ctx => step props ctx
  | CallDraw props ctx => draw props ctx ;;; ret tt
  | CallUpdate props oldProps => updateState props oldProps
  | CallClear => clear
  end.

Fixpoint performAll (cs : list Call) : JS unit :=
  match cs with
  | [] => ret tt
  | c :: cs' => perform c ;;; performAll cs'
  end.

(** ** Vocabulary of the properties *)

(** Age band [a] of a position buffer of [n] particles: [n] records of 12
    bytes, starting at record [a * n]. *)
Definition band (n a : nat) (b : list byte) : list byte :=
  take (VEC3_BYTES * n) (drop (a * (VEC3_BYTES * n)) b).

(** The current binding of the layer's transform, if any. *)
Definition currentBinding (st : LayerState) : option Binding :=
  match transform st with
  | Some tr => bindings tr !! currentIndex tr
  | None => None
  end.

(** The state [_setupTransformFeedback] establishes for [N] particles of
    [M] ages, with position buffers [hs], [ht] and age buffer [ha], and that
    stepping and clearing maintain. *)
Record Allocated (N M : Z) (w : World) (hs ht ha : nat) : Prop := {
  al_initialized : initialized (state w) = true;
  al_numInstances : numInstances (state w) = Some (N * M)%Z;
  al_numAgedInstances : numAgedInstances (state w) = Some (N * (M - 1))%Z;
  al_sourcePositions : sourcePositions (state w) = Some hs;
  al_targetPositions : targetPositions (state w) = Some ht;
  al_ages : ages (state w) = Some ha;
  al_transform : exists i, i < 2 /\
    transform (state w) =
      Some (mkTransform [mkBinding hs ht; mkBinding ht hs] i (N * M));
  al_distinct : hs <> ht /\ hs <> ha /\ ht <> ha;
  al_handles : hs < nextHandle (gpu w) /\ ht < nextHandle (gpu w)
               /\ ha < nextHandle (gpu w);
  al_source_live : exists d, buffers (gpu w) !! hs = Some d
                    /\ Z.of_nat (length d) = (12 * (N * M))%Z;
  al_target_live : exists d, buffers (gpu w) !! ht = Some d
                    /\ Z.of_nat (length d) = (12 * (N * M))%Z;
  al_ages_live : exists d, buffers (gpu w) !! ha = Some d
                  /\ Z.of_nat (length d) = (4 * (N * M))%Z }.

(** A state on which [_deleteTransformFeedback] finds what it reads. *)
Definition Releasable (st : LayerState) : Prop :=
  initialized st = true ->
  is_Some (sourcePositions st) /\ is_Some (targetPositions st)
  /\ is_Some (ages st) /\ is_Some (transform st).

(** A call made while the configuration is [N] particles of [M] ages: a
    configuration update that changes either would reallocate. *)
Definition configuredFor (N M : Z) (c : Call) : Prop :=
  match c with
  | CallStep props _ | CallDraw props _ =>
      numParticles props = N /\ maxAge props = M
  | CallUpdate props oldProps =>
      numParticles props = N /\ maxAge props = M
      /\ numParticles oldProps = N /\ maxAge oldProps = M
  | CallClear => True
  end.

(** The source buffer after the aging copy of [_runTransformFeedback]:
    [size] bytes from the start of the target buffer's data [dt], written
    over [ds] from byte [writeOffset]. *)
Definition agedSource (writeOffset size : Z) (ds dt : list byte) : list byte :=
  overwrite ds (Z.to_nat writeOffset) (take (Z.to_nat size) (drop (Z.to_nat 0) dt)).

(** The rows [new Array(numParticles).fill(age)] for [count] consecutive
    ages from [age] on. *)
Fixpoint ageRows (n count : nat) (age : Z) : list (list Z) :=
  match count with
  | O => []
  | S c => replicate n age :: ageRows n c (age + 1)%Z
  end.

(** The GL resources after [_deleteTransformFeedback] on a state whose
    buffers are [hs], [ht] and [ha]. *)
Definition releasedGPU (hs ht ha : nat) (g : GPU) : GPU :=
  GPU_delete ha (GPU_delete ht (GPU_delete hs g)).

(** The layer state [_deleteTransformFeedback] leaves. *)
Definition releasedState (st : LayerState) : LayerState :=
  {| initialized := true;
     numInstances := numInstances st;
     numAgedInstances := numAgedInstances st;
     sourcePositions := None;
     targetPositions := None;
     ages := None;
     transform := None |}.

(** The GL resources and layer state after a successful allocation for
    [N] particles of [M] ages. *)
Definition allocatedGPU (N M : Z) (g : GPU) : GPU :=
  let zeros := Float32.zeros (Z.to_nat (N * M * 3)) in
  let ages := Float32.from_list (concat (ageRows (Z.to_nat N) (Z.to_nat M) 0)) in
  GPU_alloc ages (GPU_alloc zeros (GPU_alloc zeros g)).

Definition allocatedState (N M : Z) (h : nat) : LayerState :=
  {| initialized := true;
     numInstances := Some (N * M)%Z;
     numAgedInstances := Some (N * (M - 1))%Z;
     sourcePositions := Some h;
     targetPositions := Some (S h);
     ages := Some (S (S h));
     transform := Some (new_Transform h (S h) (N * M)) |}.

(** The layer state after [transform.swap()]. *)
Definition swappedState (st : LayerState) (tr : Transform) : LayerState :=
  mkLayerState (initialized st) (numInstances st) (numAgedInstances st)
               (sourcePositions st) (targetPositions st) (ages st)
               (Some (mkTransform (bindings tr) ((currentIndex tr + 1) mod 2)
                                  (elementCount tr))).

(** The world after one pass of [_runTransformFeedback] with texture [img],
    transform [tr] and current binding [b]. *)
Definition afterRun (props : Props) (ctx : Context) (img : Texture)
    (tr : Transform) (b : Binding) (w : World) : World :=
  let u := frameUniforms img props ctx (randomSource w (randomDraws w)) in
  mkWorld
    (GPU_feedback b (elementCount tr) u
       (GPU_copyData (sourcePosition b) (targetPosition b) 0
          (numParticles props * 4 * 3)
          (default 0%Z (numAgedInstances (state w)) * 4 * 3) (gpu w)))
    (swappedState (state w) tr) (needsRedraw w) (randomSource w)
    (S (randomDraws w)) (u :: kernelLog w).

(** A world with other GL resources and layer state. *)
Definition withGPUState (w : World) (g : GPU) (st : LayerState) : World :=
  mkWorld g st (needsRedraw w) (randomSource w) (randomDraws w) (kernelLog w).

(** The same, after a [setState]: the redraw flag is set. *)
Definition afterSetState (w : World) (g : GPU) (st : LayerState) : World :=
  mkWorld g st true (randomSource w) (randomDraws w) (kernelLog w).

(** The same world with another ambient random source. *)
Definition withRandomSource (w : World) (rs : nat -> R) : World :=
  mkWorld (gpu w) (state w) (needsRedraw w) rs (randomDraws w) (kernelLog w).


(** The visible-sphere radius as the specification words it: the largest
    haversine distance from the viewport's geographic centre to the
    unprojections of the canvas centre, the half-width offset and the
    half-height offset. The canvas spans [0, width] x [0, height] in screen
    space, so its centre is (width/2, height/2). *)
Definition canvasCenter (vp : Viewport) : R * R := (width vp / 2, height vp / 2)%R.

Definition specSphereRadius (vp : Viewport) : R :=
  Geodesy.Math_max3
    (Geodesy.distanceTo (viewportSphereCenter vp) (unproject vp (canvasCenter vp)))
    (Geodesy.distanceTo (viewportSphereCenter vp) (unproject vp (width vp / 2, 0)%R))
    (Geodesy.distanceTo (viewportSphereCenter vp) (unproject vp (0, height vp / 2)%R)).

(** Atomic reallocation as the specification words it: when an allocation
    during setup fails, no new buffer is retained and the previous state and
    buffers are intact. *)
Definition ReallocationAtomic (props : Props) (w : World) : Prop :=
  forall e w', _setupTransformFeedback props w = (Throw e, w') ->
    state w' = state w /\ buffers (gpu w') = buffers (gpu w).

(** Idempotent teardown as the specification words it: a second teardown
    completes normally and changes nothing. *)
Definition TeardownIdempotent (w : World) : Prop :=
  forall w1, finalizeState w = (Normal tt, w1) ->
    finalizeState w1 = (Normal tt, w1).

End Layer.

Notation "x <- m ;; k" := (bind m (fun x => k))
  (at level 100, m at next level, right associativity, only parsing).
Notation "m ;;; k" := (bind m (fun _ => k))
  (at level 100, right associativity, only parsing).

(** ** The shader code injected by [getShaders()] (lines 52-76) *)

Module Shaders.

(** A float compared with [0.]: positive and negative zero both compare
    equal. *)
Definition f32_eq_zero (b : list byte) : bool :=
  match b with
  | [b0; b1; b2; b3] =>
      Byte.eqb b0 x00 && Byte.eqb b1 x00 && Byte.eqb b2 x00
      && (Byte.eqb b3 x00 || Byte.eqb b3 x80)
  | _ => false
  end.

(** [positions.xy == DROP_POSITION] for instance [i] of a position
    attribute of size 3, with [DROP_POSITION = vec2(0)]. *)
Definition xy_is_DROP_POSITION (positions : list byte) (i : nat) : bool :=
  f32_eq_zero (Float32.f32_at positions (3 * i))
  && f32_eq_zero (Float32.f32_at positions (3 * i + 1)).

(** ['vs:#main-start'] and ['fs:#main-start']: the varying [drop] of
    instance [i], for which the fragment shader discards. *)
Definition dropped (instanceSourcePositions instanceTargetPositions : list byte)
    (i : nat) : bool :=
  xy_is_DROP_POSITION instanceSourcePositions i
  || xy_is_DROP_POSITION instanceTargetPositions i.

End Shaders.

(** ** Further vocabulary *)

(** GL resources of the same shape: the same buffers are live, each has the
    length it had, and nothing was allocated or released. *)
Definition sameShape (g g' : GPU) : Prop :=
  nextHandle g' = nextHandle g
  /\ freeBytes g' = freeBytes g
  /\ forall h, length <$> (buffers g' !! h) = length <$> (buffers g !! h).

(** Handles are handed out in increasing order: none at or above
    [nextHandle] is live. *)
Definition GPU_wf (g : GPU) : Prop :=
  forall h, nextHandle g <= h -> buffers g !! h = None.

(** A call that is not a configuration update changing [numParticles] or
    [maxAge]. *)
Definition keepsAllocation {Texture : Type} (c : @Call Texture) : Prop :=
  match c with
  | CallUpdate props oldProps =>
      numParticles props = numParticles oldProps /\ maxAge props = maxAge oldProps
  | _ => True
  end.

(** ** Concrete configurations used in examples *)

(** A flat viewport of 2 x 2 pixels centred on (0, 0) that shows 60 degrees
    per pixel, north up. *)
Definition exampleViewport : Viewport :=
  {| resolution := None;
     longitude := 0; latitude := 0;
     width := 2; height := 2; zoom := 0;
     unproject := fun p => (60 * (fst p - 1), 60 * (1 - snd p))%R;
     getBounds := (-60, -60, 60, 60)%R |}.

(** A shader that writes the same position for every vertex. *)
Definition exampleShader : @Uniforms unit -> nat -> list byte -> Vec3 :=
  fun _ _ _ =>
    mkVec3 (x01, x00, x00, x00) (x02, x00, x00, x00) (x03, x00, x00, x00).

(** Props with the default bounds and speed factor. *)
Definition exampleProps (N M : Z) (img : option unit) : @Props unit :=
  mkProps img (-180, -90, 180, 90)%R N M 1%R true.

Definition exampleContext : Context := mkContext exampleViewport 0%R 1%R.

(** A world in which nothing has been set up, with [free] bytes of buffer
    memory. *)
Definition freshWorld (free : nat) : @World unit :=
  mkWorld (mkGPU ∅ 0 free) initialLayerState false (fun _ => 0%R) 0 [].

(** A layer of 2 particles and 3 ages whose buffers hold recognisable
    bytes: band a of the source is filled with 0x50 + a, band a of the target
    with 0xa0 + a. *)
Definition exampleSource : list byte :=
  replicate 24 x50 ++ replicate 24 x51 ++ replicate 24 x52.

Definition exampleTarget : list byte :=
  replicate 24 xa0 ++ replicate 24 xa1 ++ replicate 24 xa2.

Definition exampleWorld : @World unit :=
  mkWorld (mkGPU (<[2 := Float32.from_list [0; 0; 1; 1; 2; 2]%Z]>
                    (<[1 := exampleTarget]> (<[0 := exampleSource]> ∅)))
                 3 1000)
          (allocatedState 2 3 0) false (fun _ => 0%R) 0 [].

(** A layer of 1 particle and 1 age in a GL context with 48 bytes of buffer
    memory, 28 of them in use. *)
Definition smallWorld : @World unit :=
  mkWorld (mkGPU (<[2 := Float32.from_list [0%Z]]>
                    (<[1 := Float32.zeros 3]> (<[0 := Float32.zeros 3]> ∅)))
                 3 20)
          (allocatedState 1 1 0) false (fun _ => 0%R) 0 [].

(** * Properties *)

(** ** Geodesy *)

Section GeodesyFacts.
Import Geodesy.
Local Open Scope R_scope.

Lemma PI_lower : 3.13 < PI.
Proof.
  destruct (PI_2_3_7_ineq 0) as [H _].
  unfold sum_f_R0, tg_alt, PI_2_3_7_tg, Ratan_seq in H. simpl in H.
  lra.
Qed.

Lemma PI_upper : PI < 3.15.
Proof.
  destruct (PI_2_3_7_ineq 1) as [_ H].
  unfold sum_f_R0, tg_alt, PI_2_3_7_tg, Ratan_seq in H. simpl in H.
  lra.
Qed.

Lemma atan2_pos (y x : R) : 0 < x -> atan2 y x = atan (y / x).
Proof. intros Hx. unfold atan2. destruct (Rlt_dec 0 x); [reflexivity | contradiction]. Qed.

Lemma atan2_sin_cos (x : R) : - (PI / 2) < x < PI / 2 -> atan2 (sin x) (cos x) = x.
Proof.
  intros [Hl Hu]. rewrite atan2_pos by (apply cos_gt_0; assumption).
  change (sin x / cos x) with (tan x). apply atan_tan. split; assumption.
Qed.

Lemma distanceTo_central (from point : Point) :
  distanceTo from point =
  EARTH_RADIUS * central_angle
    (haversine_a (radians (snd from)) (radians (fst from))
                 (radians (snd point)) (radians (fst point))).
Proof.
  unfold distanceTo, central_angle, haversine_a, radians, Rsqr.
  do 4 f_equal; try f_equal; ring.
Qed.

Lemma central_angle_0 : central_angle 0 = 0.
Proof.
  unfold central_angle. rewrite Rminus_0_r, sqrt_0, sqrt_1.
  rewrite atan2_pos by lra.
  replace (0 / 1) with 0 by field. rewrite atan_0. ring.
Qed.

Lemma central_angle_sin2 (x : R) :
  - (PI / 2) < x < PI / 2 -> central_angle (sin x)² = 2 * Rabs x.
Proof.
  intros [Hl Hu]. unfold central_angle. f_equal.
  rewrite sqrt_Rsqr_abs, <- Rtrigo_facts.cos_sin_Rabs.
  assert (Hc : 0 < cos x) by (apply cos_gt_0; assumption).
  rewrite (Rabs_pos_eq (cos x)) by lra.
  destruct (Rle_dec 0 x) as [Hx | Hx].
  - rewrite (Rabs_pos_eq x) by assumption.
    rewrite Rabs_pos_eq by (apply sin_ge_0; lra).
    apply atan2_sin_cos. split; assumption.
  - assert (Hx' : x < 0) by lra.
    rewrite (Rabs_left x) by assumption.
    assert (Hs : sin x < 0) by (apply sin_lt_0_var; lra).
    rewrite (Rabs_left (sin x)) by assumption.
    rewrite <- sin_neg, <- (cos_neg x).
    apply atan2_sin_cos. split; lra.
Qed.

Lemma central_angle_increasing (a1 a2 : R) :
  0 <= a1 -> a1 < a2 -> a2 < 1 -> central_angle a1 < central_angle a2.
Proof.
  intros H0 H12 H1. unfold central_angle.
  assert (Hy2 : 0 < sqrt (1 - a2)) by (apply sqrt_lt_R0; lra).
  assert (Hy1 : sqrt (1 - a2) < sqrt (1 - a1)) by (apply sqrt_lt_1_alt; lra).
  assert (Hx : sqrt a1 < sqrt a2) by (apply sqrt_lt_1_alt; lra).
  assert (Hx0 : 0 <= sqrt a1) by apply sqrt_pos.
  rewrite !atan2_pos by lra.
  apply Rmult_lt_compat_l; [lra |].
  apply atan_increasing.
  apply Rle_lt_trans with (sqrt a1 / sqrt (1 - a2)).
  - unfold Rdiv. apply Rmult_le_compat_l; [assumption |].
    apply Rinv_le_contravar; lra.
  - unfold Rdiv. apply Rmult_lt_compat_r; [apply Rinv_0_lt_compat; lra | assumption].
Qed.

(** Along a meridian the distance is the radius times the latitude
    difference in radians. *)
Lemma distanceTo_meridian (lng lat1 lat2 : R) :
  -180 < lat2 - lat1 < 180 ->
  distanceTo (lng, lat1) (lng, lat2) = EARTH_RADIUS * radians (Rabs (lat2 - lat1)).
Proof.
  intros [Hl Hu]. rewrite distanceTo_central. f_equal. simpl.
  unfold haversine_a.
  replace ((radians lng - radians lng) / 2) with 0 by (unfold radians; field).
  rewrite sin_0. unfold Rsqr at 2. rewrite !Rmult_0_r, Rplus_0_r.
  assert (HPI := PI_RGT_0).
  rewrite central_angle_sin2.
  - replace ((radians lat2 - radians lat1) / 2)
      with ((lat2 - lat1) * (PI / 360)) by (unfold radians; field).
    rewrite Rabs_mult, (Rabs_pos_eq (PI / 360)) by lra.
    unfold radians. field.
  - unfold radians. split; nra.
Qed.

(** Along the equator the distance is the radius times the longitude
    difference in radians. *)
Lemma distanceTo_equator (lng1 lng2 : R) :
  -180 < lng2 - lng1 < 180 ->
  distanceTo (lng1, 0) (lng2, 0) = EARTH_RADIUS * radians (Rabs (lng2 - lng1)).
Proof.
  intros [Hl Hu]. rewrite distanceTo_central. f_equal. simpl.
  unfold haversine_a.
  replace (radians 0) with 0 by (unfold radians; field).
  replace ((0 - 0) / 2) with 0 by field.
  rewrite sin_0, cos_0. unfold Rsqr at 1. rewrite Rmult_0_r, Rplus_0_l, !Rmult_1_l.
  assert (HPI := PI_RGT_0).
  rewrite central_angle_sin2.
  - replace ((radians lng2 - radians lng1) / 2)
      with ((lng2 - lng1) * (PI / 360)) by (unfold radians; field).
    rewrite Rabs_mult, (Rabs_pos_eq (PI / 360)) by lra.
    unfold radians. field.
  - unfold radians. split; nra.
Qed.

End GeodesyFacts.


Section ViewportFacts.
Import Geodesy.
Local Open Scope R_scope.

Lemma Math_max3_ub (a b c : R) :
  a <= Math_max3 a b c /\ b <= Math_max3 a b c /\ c <= Math_max3 a b c.
Proof.
  unfold Math_max3. pose proof (Rmax_l (Rmax a b) c). pose proof (Rmax_r (Rmax a b) c).
  pose proof (Rmax_l a b). pose proof (Rmax_r a b). repeat split; lra.
Qed.

Lemma Math_max3_attained (a b c : R) :
  Math_max3 a b c = a \/ Math_max3 a b c = b \/ Math_max3 a b c = c.
Proof.
  unfold Math_max3, Rmax.
  destruct (Rle_dec a b); destruct (Rle_dec _ c); auto.
Qed.

Lemma example_corner :
  distanceTo (0, 0) (-60, 60) = EARTH_RADIUS * central_angle (3 / 8).
Proof.
  rewrite distanceTo_central. f_equal. f_equal. simpl.
  unfold haversine_a, radians.
  replace ((60 * PI / 180 - 0 * PI / 180) / 2) with (PI / 6) by field.
  replace ((-60 * PI / 180 - 0 * PI / 180) / 2) with (- (PI / 6)) by field.
  replace (0 * PI / 180) with 0 by field.
  replace (60 * PI / 180) with (PI / 3) by field.
  rewrite sin_neg, <- Rsqr_neg, cos_0, cos_PI3, sin_PI6. unfold Rsqr. field.
Qed.

Lemma example_edge : central_angle (1 / 4) = PI / 3.
Proof.
  assert (HPI := PI_RGT_0).
  replace (1 / 4) with (sin (PI / 6))² by (rewrite sin_PI6; unfold Rsqr; field).
  rewrite central_angle_sin2 by (split; lra).
  rewrite Rabs_pos_eq by lra. field.
Qed.

End ViewportFacts.

Section GeodesyClaims.
Import Geodesy.
Local Open Scope R_scope.

Lemma example_code_radius :
  viewportSphereRadius exampleViewport = EARTH_RADIUS * central_angle (3 / 8).
Proof.
  unfold viewportSphereRadius, viewportSphereCenter, exampleViewport. simpl.
  replace (60 * (0 - 1)) with (-60) by field.
  replace (60 * (1 - 0)) with 60 by field.
  replace (60 * (2 / 2 - 1)) with 0 by field.
  replace (60 * (1 - 2 / 2)) with 0 by field.
  rewrite example_corner.
  rewrite (distanceTo_meridian 0 0 60) by lra.
  rewrite (distanceTo_equator 0 (-60)) by lra.
  replace (60 - 0) with 60 by field. replace (-60 - 0) with (-60) by field.
  rewrite (Rabs_pos_eq 60) by lra. rewrite (Rabs_left (-60)) by lra.
  replace (- -60) with 60 by field.
  assert (H : central_angle (1 / 4) < central_angle (3 / 8))
    by (apply central_angle_increasing; lra).
  rewrite example_edge in H.
  assert (HR : 0 < EARTH_RADIUS) by (unfold EARTH_RADIUS; lra).
  assert (Hd : EARTH_RADIUS * radians 60 < EARTH_RADIUS * central_angle (3 / 8)).
  { apply Rmult_lt_compat_l; [assumption |]. unfold radians. lra. }
  unfold Math_max3.
  rewrite !(Rmax_left (EARTH_RADIUS * central_angle (3 / 8)) (EARTH_RADIUS * radians 60))
    by (apply Rlt_le; exact Hd).
  reflexivity.
Qed.

Lemma example_spec_radius :
  specSphereRadius exampleViewport = EARTH_RADIUS * (PI / 3).
Proof.
  unfold specSphereRadius, canvasCenter, viewportSphereCenter, exampleViewport. simpl.
  replace (60 * (0 - 1)) with (-60) by field.
  replace (60 * (1 - 0)) with 60 by field.
  replace (60 * (2 / 2 - 1)) with 0 by field.
  replace (60 * (1 - 2 / 2)) with 0 by field.
  rewrite (distanceTo_meridian 0 0 0) by lra.
  rewrite (distanceTo_meridian 0 0 60) by lra.
  rewrite (distanceTo_equator 0 (-60)) by lra.
  replace (0 - 0) with 0 by field.
  replace (60 - 0) with 60 by field. replace (-60 - 0) with (-60) by field.
  rewrite Rabs_R0.
  rewrite (Rabs_pos_eq 60) by lra. rewrite (Rabs_left (-60)) by lra.
  replace (- -60) with 60 by field.
  assert (HPI := PI_RGT_0).
  assert (HR : 0 < EARTH_RADIUS) by (unfold EARTH_RADIUS; lra).
  unfold radians.
  replace (0 * PI / 180) with 0 by field.
  replace (60 * PI / 180) with (PI / 3) by field.
  rewrite Rmult_0_r.
  unfold Math_max3.
  rewrite (Rmax_right 0 (EARTH_RADIUS * (PI / 3))) by nra.
  rewrite Rmax_left by apply Rle_refl. reflexivity.
Qed.


(** C8: [distanceTo] is the haversine formula with mean Earth radius
    6,370,972 m; the distance from any point to itself is 0, and
    distanceTo([0,0], [0,1]) is within 1% of 111,195 m. *)
Theorem distanceTo_haversine_formula :
  EARTH_RADIUS = 6370972
  /\ (forall from point : Point,
        distanceTo from point
        = haversine 6370972 (radians (snd from)) (radians (fst from))
                            (radians (snd point)) (radians (fst point)))
  /\ (forall P : Point, distanceTo P P = 0)
  /\ Rabs (distanceTo (0, 0) (0, 1) - 111195) <= 111195 / 100.
Proof.
  split; [reflexivity |]. split; [| split].
  - intros from point. rewrite distanceTo_central. reflexivity.
  - intros P. rewrite distanceTo_central. unfold haversine_a.
    replace ((radians (snd P) - radians (snd P)) / 2) with 0 by field.
    replace ((radians (fst P) - radians (fst P)) / 2) with 0 by field.
    rewrite sin_0. unfold Rsqr. rewrite !Rmult_0_r, Rplus_0_r.
    rewrite central_angle_0. ring.
  - rewrite (distanceTo_meridian 0 0 1) by lra.
    replace (1 - 0) with 1 by field. rewrite Rabs_R1.
    unfold radians, EARTH_RADIUS.
    pose proof PI_lower. pose proof PI_upper.
    apply Rabs_le. split; lra.
Qed.

(** C9, as the code has it: the visible-sphere radius is the maximum of the
    three haversine distances from the viewport's geographic centre to the
    unprojections of the screen points (0, 0), (width/2, 0) and
    (0, height/2). *)
Theorem sphere_radius_is_max_of_probes (vp : Viewport) :
  let center := (longitude vp, latitude vp) in
  let d0 := distanceTo center (unproject vp (0, 0)) in
  let d1 := distanceTo center (unproject vp (width vp / 2, 0)) in
  let d2 := distanceTo center (unproject vp (0, height vp / 2)) in
  let r := viewportSphereRadius vp in
  d0 <= r /\ d1 <= r /\ d2 <= r /\ (r = d0 \/ r = d1 \/ r = d2).
Proof.
  cbv zeta. unfold viewportSphereRadius, viewportSphereCenter.
  pose proof (Math_max3_ub
    (distanceTo (longitude vp, latitude vp) (unproject vp (0, 0)))
    (distanceTo (longitude vp, latitude vp) (unproject vp (width vp / 2, 0)))
    (distanceTo (longitude vp, latitude vp) (unproject vp (0, height vp / 2)))) as (H0 & H1 & H2).
  repeat split; try assumption. apply Math_max3_attained.
Qed.

(** C9 as the specification words it fails: with the canvas centre as the
    first probe the radius of the example viewport would be a sixth of the
    Earth's circumference, and the code's is larger. *)
Lemma sphere_radius_not_from_canvas_center :
  viewportSphereRadius exampleViewport <> specSphereRadius exampleViewport.
Proof.
  rewrite example_code_radius, example_spec_radius.
  assert (H : central_angle (1 / 4) < central_angle (3 / 8))
    by (apply central_angle_increasing; lra).
  rewrite example_edge in H.
  assert (HR : 0 < EARTH_RADIUS) by (unfold EARTH_RADIUS; lra).
  intros Heq. apply Rmult_eq_reg_l in Heq; lra.
Qed.

End GeodesyClaims.

(** ** Byte sequences *)

Section ByteFacts.

Lemma length_overwrite (wr data : list byte) (offset : nat) :
  offset + length data <= length wr ->
  length (overwrite wr offset data) = length wr.
Proof.
  intros H. unfold overwrite.
  rewrite !length_app, length_take, length_drop. lia.
Qed.

Lemma overwrite_all (wr data : list byte) :
  length data = length wr -> overwrite wr 0 data = data.
Proof.
  intros H. unfold overwrite. simpl.
  rewrite drop_ge by lia. apply app_nil_r.
Qed.

Lemma overwrite_tail (wr data : list byte) (offset : nat) :
  offset + length data = length wr ->
  overwrite wr offset data = take offset wr ++ data.
Proof.
  intros H. unfold overwrite. rewrite drop_ge by lia. by rewrite app_nil_r.
Qed.

Lemma length_Vec3_bytes (v : Vec3) : length (Vec3_bytes v) = VEC3_BYTES.
Proof.
  destruct v as [[[[a0 a1] a2] a3] [[[b0 b1] b2] b3] [[[c0 c1] c2] c3]].
  reflexivity.
Qed.

Lemma length_flat_map_const {A B} (f : A -> list B) (k : nat) (l : list A) :
  (forall x, length (f x) = k) -> length (flat_map f l) = k * length l.
Proof.
  intros Hf. induction l as [| x l IH]; simpl.
  - lia.
  - rewrite length_app, Hf, IH. lia.
Qed.

Lemma band_as_drop_take (n a : nat) (b : list byte) :
  band n a b = drop (a * (VEC3_BYTES * n)) (take ((a + 1) * (VEC3_BYTES * n)) b).
Proof.
  unfold band. rewrite take_drop_commute. f_equal. f_equal. lia.
Qed.

Lemma band_take (n a k : nat) (b : list byte) :
  (a + 1) * (VEC3_BYTES * n) <= k ->
  band n a (take k b) = band n a b.
Proof.
  intros H. rewrite !band_as_drop_take. f_equal.
  rewrite take_take. f_equal. lia.
Qed.

Lemma band_succ_app (n a : nat) (l k : list byte) :
  length l = VEC3_BYTES * n ->
  band n (S a) (l ++ k) = band n a k.
Proof.
  intros H. unfold band. f_equal.
  replace (S a * (VEC3_BYTES * n)) with (length l + a * (VEC3_BYTES * n)) by lia.
  apply drop_app_add.
Qed.

End ByteFacts.

(** ** Float32 elements *)

Section Float32Facts.
Import Float32.

Example f32_bits_1 : f32_bits 1 = 0x3F800000%N. Proof. reflexivity. Qed.
Example f32_bits_2 : f32_bits 2 = 0x40000000%N. Proof. reflexivity. Qed.
Example f32_bits_3 : f32_bits 3 = 0x40400000%N. Proof. reflexivity. Qed.
Example f32_bits_254 : f32_bits 254 = 0x437E0000%N. Proof. reflexivity. Qed.
Example f32_bits_2p24 : f32_bits 16777216 = 0x4B800000%N. Proof. reflexivity. Qed.
Example f32_bits_2p24_1 : f32_bits 16777217 = 0x4B800000%N. Proof. reflexivity. Qed.
Example f32_bits_2p24_3 : f32_bits 16777219 = 0x4B800002%N. Proof. reflexivity. Qed.
Example f32_bits_2p25m1 : f32_bits 33554431 = 0x4C000000%N. Proof. reflexivity. Qed.
Example f32_of_Z_1 : f32_of_Z 1 = [x00; x00; x80; x3f]. Proof. reflexivity. Qed.

Lemma length_f32_of_Z (z : Z) : length (f32_of_Z z) = BYTES_PER_ELEMENT.
Proof. reflexivity. Qed.

Lemma length_from_list (l : list Z) :
  length (from_list l) = BYTES_PER_ELEMENT * length l.
Proof.
  unfold from_list. induction l as [| z l IH]; simpl in *; [reflexivity |].
  rewrite IH. lia.
Qed.

Lemma f32_at_from_list (l : list Z) (i : nat) (z : Z) :
  l !! i = Some z -> f32_at (from_list l) i = f32_of_Z z.
Proof.
  revert i. induction l as [| y l IH]; intros i Hi; [discriminate |].
  destruct i as [| i].
  - injection Hi as ->. reflexivity.
  - unfold f32_at, from_list in *. simpl in Hi.
    change (concat (map f32_of_Z (y :: l)))
      with (f32_of_Z y ++ concat (map f32_of_Z l)).
    replace (BYTES_PER_ELEMENT * S i)
      with (length (f32_of_Z y) + BYTES_PER_ELEMENT * i)
      by (rewrite length_f32_of_Z; lia).
    rewrite drop_app_add. apply IH, Hi.
Qed.

Lemma length_zeros (len : nat) : length (zeros len) = BYTES_PER_ELEMENT * len.
Proof. unfold zeros. apply length_replicate. Qed.

Lemma f32_at_zeros (len i : nat) : i < len -> f32_at (zeros len) i = f32_zero.
Proof.
  intros H. unfold f32_at, zeros.
  rewrite drop_replicate, take_replicate.
  replace (BYTES_PER_ELEMENT `min` (BYTES_PER_ELEMENT * len - BYTES_PER_ELEMENT * i))
    with 4 by (unfold BYTES_PER_ELEMENT; lia).
  reflexivity.
Qed.

Lemma f32_length_bytes (b : list byte) (n : nat) :
  length b = BYTES_PER_ELEMENT * n -> f32_length b = n.
Proof.
  intros H. unfold f32_length. rewrite H. unfold BYTES_PER_ELEMENT.
  rewrite Nat.mul_comm. apply Nat.div_mul. lia.
Qed.

(** Every age is stored exactly: the element written for an integer below
    256 reads back as that integer. *)
Lemma to_Z_f32_of_Z (z : Z) : (0 <= z < 256)%Z -> to_Z (f32_of_Z z) = Some z.
Proof.
  intros Hz.
  assert (Hall : forallb (fun n => match to_Z (f32_of_Z (Z.of_nat n)) with
                                   | Some z' => (z' =? Z.of_nat n)%Z
                                   | None => false
                                   end) (seq 0 256) = true)
    by (vm_compute; reflexivity).
  rewrite forallb_forall in Hall.
  specialize (Hall (Z.to_nat z)).
  rewrite Z2Nat.id in Hall by lia.
  assert (Hin : In (Z.to_nat z) (seq 0 256)) by (apply in_seq; lia).
  specialize (Hall Hin).
  destruct (to_Z (f32_of_Z z)) as [z' |]; [| discriminate].
  apply Z.eqb_eq in Hall. congruence.
Qed.

Lemma length_concat_ageRows (n count : nat) (age : Z) :
  length (concat (ageRows n count age)) = n * count.
Proof.
  revert age. induction count as [| c IH]; intros age; simpl.
  - lia.
  - rewrite length_app, length_replicate, IH. lia.
Qed.

Lemma lookup_concat_ageRows (n count : nat) (age : Z) (i : nat) :
  i < n * count ->
  concat (ageRows n count age) !! i = Some (age + Z.of_nat (i / n))%Z.
Proof.
  revert age i. induction count as [| c IH]; intros age i Hi; [lia |].
  assert (Hn : n <> 0) by lia.
  simpl. destruct (decide (i < n)) as [Hlt | Hge].
  - rewrite lookup_app_l by (rewrite length_replicate; lia).
    rewrite Nat.div_small by lia.
    rewrite lookup_replicate_2 by lia. f_equal. lia.
  - rewrite lookup_app_r by (rewrite length_replicate; lia).
    rewrite length_replicate, IH by lia. f_equal.
    replace i with ((i - n) + 1 * n) at 2 by lia.
    rewrite Nat.div_add by lia. lia.
Qed.

End Float32Facts.

(** ** The GL store *)

Section LayerFacts.
Context {Texture : Type} (vs : @Uniforms Texture -> nat -> list byte -> Vec3).
Implicit Types (w : @World Texture) (props : @Props Texture) (ctx : Context).
Implicit Types (g : GPU) (st : LayerState).

Lemma bind_Normal {A B} (m : JS A) (k : A -> JS B) w a w' :
  m w = (Normal a, w') -> bind m k w = k a w'.
Proof. intros H. unfold bind. by rewrite H. Qed.

Lemma GPU_delete_lookup h h' g :
  buffers (GPU_delete h g) !! h' = if decide (h = h') then None else buffers g !! h'.
Proof.
  unfold GPU_delete. destruct (buffers g !! h) eqn:E; simpl.
  - apply lookup_delete.
  - case_decide; subst; auto.
Qed.

Lemma GPU_delete_nextHandle h g : nextHandle (GPU_delete h g) = nextHandle g.
Proof. unfold GPU_delete. destruct (buffers g !! h); reflexivity. Qed.

Lemma GPU_delete_freeBytes h g : freeBytes g <= freeBytes (GPU_delete h g).
Proof. unfold GPU_delete. destruct (buffers g !! h); simpl; lia. Qed.

Lemma releasedGPU_lookup hs ht ha g h :
  buffers (releasedGPU hs ht ha g) !! h =
  if decide (h = hs \/ h = ht \/ h = ha) then None else buffers g !! h.
Proof.
  unfold releasedGPU. rewrite !GPU_delete_lookup.
  repeat case_decide; try reflexivity; exfalso; intuition congruence.
Qed.

Lemma releasedGPU_nextHandle hs ht ha g :
  nextHandle (releasedGPU hs ht ha g) = nextHandle g.
Proof. unfold releasedGPU. by rewrite !GPU_delete_nextHandle. Qed.

Lemma releasedGPU_freeBytes hs ht ha g :
  freeBytes g <= freeBytes (releasedGPU hs ht ha g).
Proof.
  unfold releasedGPU.
  pose proof (GPU_delete_freeBytes hs g).
  pose proof (GPU_delete_freeBytes ht (GPU_delete hs g)).
  pose proof (GPU_delete_freeBytes ha (GPU_delete ht (GPU_delete hs g))). lia.
Qed.

Lemma GPU_alloc_lookup data g h :
  buffers (GPU_alloc data g) !! h =
  if decide (nextHandle g = h) then Some data else buffers g !! h.
Proof. unfold GPU_alloc. simpl. apply lookup_insert. Qed.

Lemma GPU_alloc_lookup_old data g h :
  h < nextHandle g -> buffers (GPU_alloc data g) !! h = buffers g !! h.
Proof. intros H. rewrite GPU_alloc_lookup. case_decide; [lia | reflexivity]. Qed.

(** ** Built-ins and allocation *)

Lemma new_Float32Array_ok (len : Z) w :
  (0 <= len)%Z ->
  new_Float32Array len w = (Normal (Float32.zeros (Z.to_nat len)), w).
Proof.
  intros H. unfold new_Float32Array.
  destruct (Z.ltb_spec len 0); [lia | reflexivity].
Qed.

Lemma new_Array_ok (len : Z) w :
  (0 <= len <= 2 ^ 32 - 1)%Z ->
  new_Array len w = (Normal (replicate (Z.to_nat len) tt), w).
Proof.
  intros H. unfold new_Array.
  destruct (Z.ltb_spec len 0); [lia |].
  destruct (Z.ltb_spec (2 ^ 32 - 1) len); [lia | reflexivity].
Qed.

Lemma new_Buffer_ok (data : list byte) w :
  length data <= freeBytes (gpu w) ->
  new_Buffer data w
  = (Normal (nextHandle (gpu w)), withGPUState w (GPU_alloc data (gpu w)) (state w)).
Proof.
  intros H. unfold new_Buffer, bind, getGPU.
  destruct (Nat.leb_spec (length data) (freeBytes (gpu w))); [reflexivity | lia].
Qed.

Lemma Array_fill_replicate {A B} (k : nat) (x : A) (v : B) :
  Array_fill (replicate k x) v = replicate k v.
Proof.
  unfold Array_fill. induction k as [| k IH]; simpl; [reflexivity | by rewrite IH].
Qed.

Lemma Array_map_rows (n : Z) (holes : list unit) (age : Z) w :
  (0 <= n <= 2 ^ 32 - 1)%Z ->
  Array_map (fun (_ : unit) (age : Z) =>
               row <- new_Array n ;; ret (Array_fill row age)) holes age w
  = (Normal (ageRows (Z.to_nat n) (length holes) age), w).
Proof.
  intros Hn. revert age. induction holes as [| x holes IH]; intros age; simpl.
  - reflexivity.
  - unfold bind at 1. unfold bind at 1. rewrite new_Array_ok by exact Hn.
    unfold ret at 1. erewrite bind_Normal by apply IH.
    unfold ret. by rewrite Array_fill_replicate.
Qed.

Lemma agesArray_ok props w :
  (0 <= numParticles props <= 2 ^ 32 - 1)%Z ->
  (0 <= maxAge props <= 2 ^ 32 - 1)%Z ->
  agesArray props w
  = (Normal (concat (ageRows (Z.to_nat (numParticles props))
                             (Z.to_nat (maxAge props)) 0)), w).
Proof.
  intros HN HM. unfold agesArray.
  erewrite bind_Normal by (apply new_Array_ok; exact HM).
  erewrite bind_Normal by (apply Array_map_rows; exact HN).
  unfold ret. rewrite Array_fill_replicate, length_replicate. reflexivity.
Qed.

Lemma allocate_ok props w :
  (0 <= numParticles props <= 2 ^ 32 - 1)%Z ->
  (0 <= maxAge props <= 2 ^ 32 - 1)%Z ->
  (28 * (numParticles props * maxAge props) <= Z.of_nat (freeBytes (gpu w)))%Z ->
  _setupTransformFeedback_allocate props w
  = (Normal tt,
     afterSetState w (allocatedGPU (numParticles props) (maxAge props) (gpu w))
       (allocatedState (numParticles props) (maxAge props) (nextHandle (gpu w)))).
Proof.
  intros HN HM Hfree. unfold _setupTransformFeedback_allocate.
  set (N := numParticles props) in *. set (M := maxAge props) in *.
  assert (HNM : (0 <= N * M)%Z) by lia.
  erewrite bind_Normal by (apply new_Float32Array_ok; lia).
  erewrite bind_Normal
    by (apply new_Buffer_ok; rewrite length_zeros; unfold Float32.BYTES_PER_ELEMENT; lia).
  erewrite bind_Normal by (apply new_Float32Array_ok; lia).
  erewrite bind_Normal
    by (apply new_Buffer_ok; simpl; rewrite !length_zeros;
        unfold Float32.BYTES_PER_ELEMENT; lia).
  erewrite bind_Normal by (apply agesArray_ok; assumption).
  erewrite bind_Normal.
  2:{ apply new_Buffer_ok. simpl. rewrite length_from_list, length_concat_ageRows, !length_zeros.
      unfold Float32.BYTES_PER_ELEMENT. fold N. fold M. lia. }
  reflexivity.
Qed.

(** ** Release and setup *)

Lemma deleteTransformFeedback_uninitialized w :
  initialized (state w) = false -> _deleteTransformFeedback w = (Normal tt, w).
Proof.
  intros H. unfold _deleteTransformFeedback, bind, getState. rewrite H. reflexivity.
Qed.

Lemma deleteTransformFeedback_ok w hs ht ha tr :
  initialized (state w) = true ->
  sourcePositions (state w) = Some hs ->
  targetPositions (state w) = Some ht ->
  ages (state w) = Some ha ->
  transform (state w) = Some tr ->
  _deleteTransformFeedback w
  = (Normal tt, afterSetState w (releasedGPU hs ht ha (gpu w)) (releasedState (state w))).
Proof.
  intros H1 H2 H3 H4 H5. unfold _deleteTransformFeedback.
  unfold bind at 1. unfold getState at 1. rewrite H1, H2, H3, H4, H5. reflexivity.
Qed.

Lemma deleteTransformFeedback_undefined w :
  initialized (state w) = true ->
  sourcePositions (state w) = None ->
  _deleteTransformFeedback w = (Throw TypeError, w).
Proof.
  intros H1 H2. unfold _deleteTransformFeedback.
  unfold bind at 1. unfold getState at 1. rewrite H1, H2. reflexivity.
Qed.

Lemma setup_fresh props w :
  initialized (state w) = false ->
  (0 <= numParticles props <= 2 ^ 32 - 1)%Z ->
  (0 <= maxAge props <= 2 ^ 32 - 1)%Z ->
  (28 * (numParticles props * maxAge props) <= Z.of_nat (freeBytes (gpu w)))%Z ->
  _setupTransformFeedback props w
  = (Normal tt,
     afterSetState w (allocatedGPU (numParticles props) (maxAge props) (gpu w))
       (allocatedState (numParticles props) (maxAge props) (nextHandle (gpu w)))).
Proof.
  intros Hi HN HM Hfree. unfold _setupTransformFeedback.
  unfold bind at 1. unfold getState at 1. rewrite Hi.
  unfold bind at 1. unfold ret at 1.
  apply allocate_ok; assumption.
Qed.

Lemma setup_again props w hs ht ha tr :
  initialized (state w) = true ->
  sourcePositions (state w) = Some hs ->
  targetPositions (state w) = Some ht ->
  ages (state w) = Some ha ->
  transform (state w) = Some tr ->
  (0 <= numParticles props <= 2 ^ 32 - 1)%Z ->
  (0 <= maxAge props <= 2 ^ 32 - 1)%Z ->
  (28 * (numParticles props * maxAge props) <= Z.of_nat (freeBytes (gpu w)))%Z ->
  _setupTransformFeedback props w
  = (Normal tt,
     afterSetState w
       (allocatedGPU (numParticles props) (maxAge props) (releasedGPU hs ht ha (gpu w)))
       (allocatedState (numParticles props) (maxAge props) (nextHandle (gpu w)))).
Proof.
  intros Hi H2 H3 H4 H5 HN HM Hfree. unfold _setupTransformFeedback.
  unfold bind at 1. unfold getState at 1. rewrite Hi.
  erewrite bind_Normal by (eapply deleteTransformFeedback_ok; eassumption).
  rewrite allocate_ok; try assumption.
  - simpl. rewrite releasedGPU_nextHandle. reflexivity.
  - simpl. pose proof (releasedGPU_freeBytes hs ht ha (gpu w)). lia.
Qed.

Lemma allocatedGPU_lookups (N M : Z) g :
  let h := nextHandle g in
  buffers (allocatedGPU N M g) !! h = Some (Float32.zeros (Z.to_nat (N * M * 3)))
  /\ buffers (allocatedGPU N M g) !! S h = Some (Float32.zeros (Z.to_nat (N * M * 3)))
  /\ buffers (allocatedGPU N M g) !! S (S h)
     = Some (Float32.from_list (concat (ageRows (Z.to_nat N) (Z.to_nat M) 0)))
  /\ nextHandle (allocatedGPU N M g) = S (S (S h))
  /\ forall h', h' < h -> buffers (allocatedGPU N M g) !! h' = buffers g !! h'.
Proof.
  unfold allocatedGPU. cbv zeta.
  repeat split; try intros h' Hh'; rewrite ?GPU_alloc_lookup; simpl;
    repeat case_decide; try lia; reflexivity.
Qed.

Lemma allocated_Allocated (N M : Z) w g :
  (0 <= N)%Z -> (0 <= M)%Z ->
  Allocated N M
    (afterSetState w (allocatedGPU N M g) (allocatedState N M (nextHandle g)))
    (nextHandle g) (S (nextHandle g)) (S (S (nextHandle g))).
Proof.
  intros HN HM.
  destruct (allocatedGPU_lookups N M g) as (Hs & Ht & Ha & Hn & _).
  split;
    cbn [state gpu withGPUState afterSetState allocatedState initialized numInstances
         numAgedInstances sourcePositions targetPositions ages transform];
    try reflexivity.
  - exists 0. split; [lia | reflexivity].
  - lia.
  - rewrite Hn. lia.
  - eexists. split; [exact Hs |]. rewrite length_zeros. unfold Float32.BYTES_PER_ELEMENT. lia.
  - eexists. split; [exact Ht |]. rewrite length_zeros. unfold Float32.BYTES_PER_ELEMENT. lia.
  - eexists. split; [exact Ha |].
    rewrite length_from_list, length_concat_ageRows. unfold Float32.BYTES_PER_ELEMENT. lia.
Qed.

(** ** One pass of the transform *)

Lemma runTransformFeedback_skip props ctx w :
  image props = None -> _runTransformFeedback vs props ctx w = (Normal tt, w).
Proof.
  intros H. unfold _runTransformFeedback, bind, getState. rewrite H. reflexivity.
Qed.

Lemma runTransformFeedback_run props ctx w img tr b :
  image props = Some img ->
  transform (state w) = Some tr ->
  bindings tr !! currentIndex tr = Some b ->
  _runTransformFeedback vs props ctx w = (Normal tt, afterRun vs props ctx img tr b w).
Proof.
  intros Hi Ht Hb. unfold _runTransformFeedback.
  unfold bind at 1. unfold getState at 1. rewrite Hi, Ht.
  unfold bind at 1. unfold deref at 1, ret at 1.
  unfold bind at 1. rewrite Hb. unfold deref at 1, ret at 1.
  unfold bind at 1. unfold Buffer_copyData, modifyGPU.
  unfold bind at 1. unfold getGPU at 1. unfold putGPU at 1.
  unfold bind at 1. unfold Math_random at 1.
  unfold bind at 1. unfold Transform_run.
  unfold bind at 1. rewrite Hb. unfold deref at 1, ret at 1.
  reflexivity.
Qed.

Lemma agedSource_bulk (N M : Z) (ds dt : list byte) :
  (0 <= N)%Z -> (1 <= M)%Z ->
  Z.of_nat (length ds) = (12 * (N * M))%Z ->
  Z.of_nat (length dt) = (12 * (N * M))%Z ->
  agedSource (N * 4 * 3) (N * (M - 1) * 4 * 3) ds dt
  = take (VEC3_BYTES * Z.to_nat N) ds
    ++ take (VEC3_BYTES * Z.to_nat N * (Z.to_nat M - 1)) dt.
Proof.
  intros HN HM Hds Hdt. unfold agedSource, VEC3_BYTES. simpl drop.
  replace (Z.to_nat (N * 4 * 3)) with (12 * Z.to_nat N) by lia.
  replace (Z.to_nat (N * (M - 1) * 4 * 3)) with (12 * Z.to_nat N * (Z.to_nat M - 1)) by nia.
  apply overwrite_tail. rewrite length_take. nia.
Qed.

Lemma length_agedSource (N M : Z) (ds dt : list byte) :
  (0 <= N)%Z -> (1 <= M)%Z ->
  Z.of_nat (length ds) = (12 * (N * M))%Z ->
  Z.of_nat (length dt) = (12 * (N * M))%Z ->
  length (agedSource (N * 4 * 3) (N * (M - 1) * 4 * 3) ds dt) = length ds.
Proof.
  intros HN HM Hds Hdt. unfold agedSource. simpl drop.
  apply length_overwrite. rewrite length_take. nia.
Qed.

Lemma length_feedbackOutput (u : Uniforms) (n : nat) (src : list byte) :
  length (feedbackOutput vs u n src) = VEC3_BYTES * n.
Proof.
  unfold feedbackOutput.
  rewrite (length_flat_map_const _ VEC3_BYTES) by (intros; apply length_Vec3_bytes).
  by rewrite length_seq.
Qed.

Lemma feedbackOutput_take (u : Uniforms) (n k : nat) (src : list byte) :
  take (VEC3_BYTES * n) (feedbackOutput vs u (n + k) src) = feedbackOutput vs u n src.
Proof.
  unfold feedbackOutput at 1. rewrite seq_app, flat_map_app.
  fold (feedbackOutput vs u n src).
  rewrite take_app_length' by (by rewrite length_feedbackOutput).
  reflexivity.
Qed.

Lemma GPU_copyData_aging (N M : Z) (s t : nat) (ds dt : list byte) g :
  s <> t -> (0 <= N)%Z -> (1 <= M)%Z ->
  buffers g !! s = Some ds -> buffers g !! t = Some dt ->
  Z.of_nat (length ds) = (12 * (N * M))%Z ->
  Z.of_nat (length dt) = (12 * (N * M))%Z ->
  GPU_copyData s t 0 (N * 4 * 3) (N * (M - 1) * 4 * 3) g
  = mkGPU (<[s := agedSource (N * 4 * 3) (N * (M - 1) * 4 * 3) ds dt]> (buffers g))
          (nextHandle g) (freeBytes g).
Proof.
  intros Hst HN HM Hs Ht Hds Hdt. unfold GPU_copyData. rewrite Hs, Ht.
  assert (Hne : (s =? t)%nat = false) by (apply Nat.eqb_neq; exact Hst).
  rewrite Hne. simpl negb. rewrite andb_true_r.
  assert (H1 : (0 <=? N * 4 * 3)%Z = true) by (apply Z.leb_le; lia).
  assert (H2 : (0 <=? N * (M - 1) * 4 * 3)%Z = true) by (apply Z.leb_le; nia).
  assert (H3 : (0 + N * (M - 1) * 4 * 3 <=? Z.of_nat (length dt))%Z = true)
    by (apply Z.leb_le; nia).
  assert (H4 : (N * 4 * 3 + N * (M - 1) * 4 * 3 <=? Z.of_nat (length ds))%Z = true)
    by (apply Z.leb_le; nia).
  rewrite H1, H2, H3, H4. reflexivity.
Qed.

Lemma GPU_feedback_full (u : Uniforms) (count : Z) (s t : nat) (src fb : list byte) g :
  buffers g !! s = Some src -> buffers g !! t = Some fb ->
  length src = VEC3_BYTES * Z.to_nat count ->
  length fb = VEC3_BYTES * Z.to_nat count ->
  GPU_feedback vs (mkBinding s t) count u g
  = mkGPU (<[t := feedbackOutput vs u (Z.to_nat count) src]> (buffers g))
          (nextHandle g) (freeBytes g).
Proof.
  intros Hs Ht Hsrc Hfb. unfold GPU_feedback. simpl sourcePosition. simpl targetPosition.
  rewrite Hs, Ht. cbv zeta. rewrite Hsrc, Hfb, !Nat.leb_refl. simpl andb. cbv iota.
  rewrite overwrite_all by (rewrite length_feedbackOutput; lia).
  reflexivity.
Qed.

(** What an allocated layer's transform looks like: the current binding is
    one of the two orientations of the position buffers. *)
Lemma Allocated_binding (N M : Z) w hs ht ha :
  Allocated N M w hs ht ha ->
  exists tr s t,
    transform (state w) = Some tr
    /\ bindings tr = [mkBinding hs ht; mkBinding ht hs]
    /\ bindings tr !! currentIndex tr = Some (mkBinding s t)
    /\ bindings tr !! ((currentIndex tr + 1) mod 2) = Some (mkBinding t s)
    /\ elementCount tr = (N * M)%Z
    /\ ((s = hs /\ t = ht) \/ (s = ht /\ t = hs)).
Proof.
  intros [_ _ _ _ _ _ (i & Hi & Htr) _ _ _ _ _].
  destruct i as [| [| i]]; [| | lia].
  - exists (mkTransform [mkBinding hs ht; mkBinding ht hs] 0 (N * M)), hs, ht.
    repeat split; try assumption; try reflexivity. left. by split.
  - exists (mkTransform [mkBinding hs ht; mkBinding ht hs] 1 (N * M)), ht, hs.
    repeat split; try assumption; try reflexivity. right. by split.
Qed.

(** The world after one pass from an allocated state, in terms of the data
    [ds], [dt] of the current source and target buffers. *)
Lemma afterRun_Allocated props ctx img w hs ht ha tr s t (ds dt : list byte) :
  let N := numParticles props in
  let M := maxAge props in
  let u := frameUniforms img props ctx (randomSource w (randomDraws w)) in
  let ds' := agedSource (N * 4 * 3) (N * (M - 1) * 4 * 3) ds dt in
  (1 <= M)%Z ->
  Allocated N M w hs ht ha ->
  transform (state w) = Some tr ->
  elementCount tr = (N * M)%Z ->
  (s = hs /\ t = ht) \/ (s = ht /\ t = hs) ->
  buffers (gpu w) !! s = Some ds -> buffers (gpu w) !! t = Some dt ->
  afterRun vs props ctx img tr (mkBinding s t) w
  = mkWorld
      (mkGPU (<[t := feedbackOutput vs u (Z.to_nat (N * M)) ds']>
                (<[s := ds']> (buffers (gpu w))))
             (nextHandle (gpu w)) (freeBytes (gpu w)))
      (swappedState (state w) tr) (needsRedraw w) (randomSource w)
      (S (randomDraws w)) (u :: kernelLog w).
Proof.
  intros N M u ds' HM HA Htr Hcount Hst Hs Ht.
  destruct HA as [_ _ Haged _ _ _ _ (Hd1 & Hd2 & Hd3) _
                    (ds0 & Hds0 & Hlen_s) (dt0 & Hdt0 & Hlen_t) _].
  assert (Hne : s <> t) by (destruct Hst as [[-> ->] | [-> ->]]; congruence).
  assert (Hlds : Z.of_nat (length ds) = (12 * (N * M))%Z)
    by (destruct Hst as [[-> ->] | [-> ->]]; congruence).
  assert (Hldt : Z.of_nat (length dt) = (12 * (N * M))%Z)
    by (destruct Hst as [[-> ->] | [-> ->]]; congruence).
  assert (HN : (0 <= N)%Z) by nia.
  unfold afterRun. rewrite Haged. simpl default. simpl sourcePosition. simpl targetPosition.
  rewrite (GPU_copyData_aging N M s t ds dt) by assumption.
  rewrite Hcount.
  erewrite GPU_feedback_full.
  - reflexivity.
  - simpl. apply lookup_insert_eq.
  - simpl. rewrite lookup_insert_ne by exact Hne. exact Ht.
  - unfold ds'. rewrite length_agedSource by assumption. unfold VEC3_BYTES. lia.
  - unfold VEC3_BYTES. lia.
Qed.

Lemma Allocated_buffers (N M : Z) w hs ht ha s t :
  Allocated N M w hs ht ha ->
  (s = hs /\ t = ht) \/ (s = ht /\ t = hs) ->
  exists ds dt,
    buffers (gpu w) !! s = Some ds /\ buffers (gpu w) !! t = Some dt
    /\ Z.of_nat (length ds) = (12 * (N * M))%Z
    /\ Z.of_nat (length dt) = (12 * (N * M))%Z
    /\ s <> t /\ s <> ha /\ t <> ha.
Proof.
  intros [_ _ _ _ _ _ _ (Hd1 & Hd2 & Hd3) _ (d1 & H1 & L1) (d2 & H2 & L2) _] Hst.
  destruct Hst as [[-> ->] | [-> ->]].
  - exists d1, d2. repeat split; auto.
  - exists d2, d1. repeat split; auto.
Qed.

(** One pass keeps the layer allocated and does not touch the age buffer. *)
Lemma runTransformFeedback_preserves props ctx w hs ht ha :
  (1 <= maxAge props)%Z ->
  Allocated (numParticles props) (maxAge props) w hs ht ha ->
  exists w',
    _runTransformFeedback vs props ctx w = (Normal tt, w')
    /\ Allocated (numParticles props) (maxAge props) w' hs ht ha
    /\ buffers (gpu w') !! ha = buffers (gpu w) !! ha.
Proof.
  intros HM HA. destruct (image props) as [img |] eqn:Himg.
  2:{ exists w. split; [by apply runTransformFeedback_skip | split; [assumption | reflexivity]]. }
  destruct (Allocated_binding _ _ _ _ _ _ HA) as (tr & s & t & Htr & Hbs & Hb & Hb' & Hc & Hst).
  destruct (Allocated_buffers _ _ _ _ _ _ s t HA Hst)
    as (ds & dt & Hs & Ht & Lds & Ldt & Hne & Hsa & Hta).
  eexists. split; [eapply runTransformFeedback_run; eassumption |].
  rewrite (afterRun_Allocated props ctx img w hs ht ha tr s t ds dt) by assumption.
  assert (HN : (0 <= numParticles props)%Z) by nia.
  assert (Hl1 : Z.of_nat (length (agedSource (numParticles props * 4 * 3)
                 (numParticles props * (maxAge props - 1) * 4 * 3) ds dt))
                = (12 * (numParticles props * maxAge props))%Z)
    by (rewrite length_agedSource by assumption; exact Lds).
  assert (Hl2 : forall u src, Z.of_nat (length (feedbackOutput vs u
                   (Z.to_nat (numParticles props * maxAge props)) src))
                = (12 * (numParticles props * maxAge props))%Z)
    by (intros; rewrite length_feedbackOutput; unfold VEC3_BYTES; nia).
  split.
  - destruct HA as [A1 A2 A3 A4 A5 A6 _ A8 A9 _ _ (da & Hda & Lda)].
    split; cbn [state gpu swappedState initialized numInstances numAgedInstances
                sourcePositions targetPositions ages transform buffers nextHandle];
      try assumption.
    + exists ((currentIndex tr + 1) mod 2). split.
      * apply Nat.mod_upper_bound. lia.
      * rewrite Hbs, Hc. reflexivity.
    + destruct Hst as [[-> ->] | [-> ->]].
      * eexists. split; [| apply Hl1].
        rewrite lookup_insert_ne by auto. apply lookup_insert_eq.
      * eexists. split; [| apply Hl2]. apply lookup_insert_eq.
    + destruct Hst as [[-> ->] | [-> ->]].
      * eexists. split; [| apply Hl2]. apply lookup_insert_eq.
      * eexists. split; [| apply Hl1].
        rewrite lookup_insert_ne by auto. apply lookup_insert_eq.
    + exists da. split; [| exact Lda].
      rewrite !lookup_insert_ne by auto. exact Hda.
  - simpl. rewrite !lookup_insert_ne by auto. reflexivity.
Qed.

(** ** Clearing *)

Lemma GPU_subData_full (dst : nat) (data wr : list byte) g :
  buffers g !! dst = Some wr -> length data = length wr ->
  GPU_subData dst data g
  = mkGPU (<[dst := data]> (buffers g)) (nextHandle g) (freeBytes g).
Proof.
  intros Hd Hl. unfold GPU_subData. rewrite Hd, Hl, Nat.leb_refl.
  rewrite overwrite_all by exact Hl. reflexivity.
Qed.

Lemma clear_Allocated (N M : Z) w hs ht ha :
  Allocated N M w hs ht ha ->
  clear w
  = (Normal tt,
     mkWorld
       (mkGPU (<[ht := Float32.zeros (Z.to_nat (N * M * 3))]>
                 (<[hs := Float32.zeros (Z.to_nat (N * M * 3))]> (buffers (gpu w))))
              (nextHandle (gpu w)) (freeBytes (gpu w)))
       (state w) true (randomSource w) (randomDraws w) (kernelLog w)).
Proof.
  intros [_ A2 _ A4 A5 _ _ (Hd1 & Hd2 & Hd3) _ (ds & Hs & Ls) (dt & Ht & Lt) _].
  assert (HNM : (0 <= N * M * 3)%Z) by lia.
  unfold clear. unfold bind at 1. unfold getState at 1. rewrite A2, A4, A5.
  simpl default. unfold bind at 1. unfold deref at 1, ret at 1.
  erewrite bind_Normal by (apply new_Float32Array_ok; exact HNM).
  unfold bind at 1. unfold Buffer_subData at 1, modifyGPU, bind at 1, getGPU, putGPU.
  unfold bind at 1. unfold deref at 1, ret at 1.
  erewrite bind_Normal by (apply new_Float32Array_ok; exact HNM).
  unfold bind at 1. unfold Buffer_subData at 1, modifyGPU, bind at 1, getGPU, putGPU.
  unfold setNeedsRedraw. cbn [gpu state needsRedraw randomSource randomDraws kernelLog].
  assert (Hz : length (Float32.zeros (Z.to_nat (N * M * 3))) = length ds)
    by (rewrite length_zeros; unfold Float32.BYTES_PER_ELEMENT; lia).
  assert (Hz' : length (Float32.zeros (Z.to_nat (N * M * 3))) = length dt)
    by (rewrite length_zeros; unfold Float32.BYTES_PER_ELEMENT; lia).
  rewrite (GPU_subData_full hs _ ds) by assumption.
  rewrite (GPU_subData_full ht _ dt);
    [reflexivity | by (simpl; rewrite lookup_insert_ne by exact Hd1) | exact Hz'].
Qed.

Lemma clear_preserves (N M : Z) w hs ht ha :
  Allocated N M w hs ht ha ->
  exists w',
    clear w = (Normal tt, w')
    /\ Allocated N M w' hs ht ha
    /\ buffers (gpu w') !! ha = buffers (gpu w) !! ha.
Proof.
  intros HA. eexists. split; [by eapply clear_Allocated |].
  pose proof HA as [A1 A2 A3 A4 A5 A6 A7 (Hd1 & Hd2 & Hd3) A9
                     (ds & Hs & Ls) (dt & Ht & Lt) (da & Hda & Lda)].
  assert (Hz : Z.of_nat (length (Float32.zeros (Z.to_nat (N * M * 3))))
               = (12 * (N * M))%Z)
    by (rewrite length_zeros; unfold Float32.BYTES_PER_ELEMENT; lia).
  split.
  - split; cbn [state gpu buffers nextHandle]; try assumption.
    + auto.
    + eexists. split; [| exact Hz].
      rewrite lookup_insert_ne by auto. apply lookup_insert_eq.
    + eexists. split; [| exact Hz]. apply lookup_insert_eq.
    + exists da. split; [| exact Lda]. rewrite !lookup_insert_ne by auto. exact Hda.
  - simpl. rewrite !lookup_insert_ne by auto. reflexivity.
Qed.

(** ** Sequences of calls *)

Lemma Allocated_frame (N M : Z) w w' hs ht ha :
  gpu w' = gpu w -> state w' = state w ->
  Allocated N M w hs ht ha -> Allocated N M w' hs ht ha.
Proof.
  intros Hg Hs [A1 A2 A3 A4 A5 A6 A7 A8 A9 A10 A11 A12].
  split; rewrite ?Hg, ?Hs; assumption.
Qed.

Lemma step_preserves props ctx w hs ht ha :
  (1 <= maxAge props)%Z ->
  Allocated (numParticles props) (maxAge props) w hs ht ha ->
  exists w',
    step vs props ctx w = (Normal tt, w')
    /\ Allocated (numParticles props) (maxAge props) w' hs ht ha
    /\ buffers (gpu w') !! ha = buffers (gpu w) !! ha.
Proof.
  intros HM HA.
  destruct (runTransformFeedback_preserves props ctx w hs ht ha HM HA) as (w1 & Hr & HA1 & Ha1).
  eexists. split; [unfold step; erewrite bind_Normal by exact Hr; reflexivity |].
  split; [eapply Allocated_frame; [| | exact HA1]; reflexivity | exact Ha1].
Qed.

Lemma perform_preserves (N M : Z) (c : Call) w hs ht ha :
  (1 <= M)%Z -> configuredFor N M c ->
  Allocated N M w hs ht ha ->
  exists w',
    perform vs c w = (Normal tt, w')
    /\ Allocated N M w' hs ht ha
    /\ buffers (gpu w') !! ha = buffers (gpu w) !! ha.
Proof.
  intros HM Hc HA. destruct c as [props ctx | props ctx | props oldProps |]; simpl in *.
  - destruct Hc as [<- <-]. by apply step_preserves.
  - destruct Hc as [<- <-]. unfold draw, bind, getState, ret.
    destruct (animate props).
    + destruct (runTransformFeedback_preserves props ctx w hs ht ha HM HA)
        as (w1 & Hr & HA1 & Ha1).
      exists w1. rewrite Hr. split; [reflexivity | split; assumption].
    + exists w. split; [reflexivity | split; [assumption | reflexivity]].
  - destruct Hc as (HN1 & HM1 & HN2 & HM2). unfold updateState.
    rewrite HN1, HM1, HN2, HM2, !Z.eqb_refl. simpl.
    exists w. split; [reflexivity | split; [assumption | reflexivity]].
  - by apply clear_preserves.
Qed.

Lemma performAll_preserves (N M : Z) (cs : list Call) w hs ht ha :
  (1 <= M)%Z -> Forall (configuredFor N M) cs ->
  Allocated N M w hs ht ha ->
  exists w',
    performAll vs cs w = (Normal tt, w')
    /\ Allocated N M w' hs ht ha
    /\ buffers (gpu w') !! ha = buffers (gpu w) !! ha.
Proof.
  intros HM Hcs. revert w. induction Hcs as [| c cs Hc _ IH]; intros w HA; simpl.
  - exists w. split; [reflexivity | split; [assumption | reflexivity]].
  - destruct (perform_preserves N M c w hs ht ha HM Hc HA) as (w1 & Hp & HA1 & Ha1).
    destruct (IH w1 HA1) as (w2 & Hp2 & HA2 & Ha2).
    exists w2. split; [erewrite bind_Normal by exact Hp; exact Hp2 |].
    split; [exact HA2 | congruence].
Qed.

(** ** Outcomes of allocation, normal or not *)

Lemma new_Float32Array_pure (len : Z) w r w' :
  new_Float32Array len w = (r, w') -> w' = w.
Proof.
  unfold new_Float32Array, throw, ret. destruct (len <? 0)%Z; congruence.
Qed.

Lemma new_Array_pure (len : Z) w r w' :
  new_Array len w = (r, w') -> w' = w.
Proof.
  unfold new_Array, throw, ret. destruct (_ || _); congruence.
Qed.

Lemma Array_map_pure {A B} (f : A -> Z -> JS B) (l : list A) (i : Z) w r w' :
  (forall x j w0 r0 w0', f x j w0 = (r0, w0') -> w0' = w0) ->
  Array_map f l i w = (r, w') -> w' = w.
Proof.
  intros Hf. revert i w r w'. induction l as [| x l IH]; intros i w r w'; simpl.
  - unfold ret. congruence.
  - unfold bind. destruct (f x i w) as [[y | e] w1] eqn:E1.
    + apply Hf in E1 as ->.
      destruct (Array_map f l (i + 1) w) as [[ys | e] w2] eqn:E2.
      * apply IH in E2 as ->. unfold ret. congruence.
      * apply IH in E2 as ->. congruence.
    + apply Hf in E1 as ->. congruence.
Qed.

Lemma agesArray_row_pure (n age : Z) w r w' :
  (row <- new_Array n ;; ret (Array_fill row age)) w = (r, w') -> w' = w.
Proof.
  unfold bind.
  destruct (new_Array n w) as [[row | e] w1] eqn:E;
    apply new_Array_pure in E as ->; unfold ret; congruence.
Qed.

Lemma agesArray_pure props w r w' : agesArray props w = (r, w') -> w' = w.
Proof.
  unfold agesArray. unfold bind at 1.
  destruct (new_Array (maxAge props) w) as [[holes | e] w1] eqn:E1;
    apply new_Array_pure in E1 as ->; [| congruence].
  unfold bind at 1.
  destruct (Array_map _ _ _ w) as [[rows | e] w2] eqn:E2;
    (apply Array_map_pure in E2 as ->;
     [unfold ret; congruence
     | intros x j w0 r0 w0'; apply agesArray_row_pure]).
Qed.

Lemma new_Buffer_outcome (data : list byte) w r w' :
  new_Buffer data w = (r, w') ->
  (exists e, r = Throw e /\ w' = w)
  \/ (r = Normal (nextHandle (gpu w))
      /\ w' = withGPUState w (GPU_alloc data (gpu w)) (state w)).
Proof.
  unfold new_Buffer, bind, getGPU.
  destruct (length data <=? freeBytes (gpu w))%nat; simpl; intros [= <- <-].
  - right. split; reflexivity.
  - left. eexists. split; reflexivity.
Qed.

(** Whatever the outcome of the allocation part, buffers that existed
    before are untouched, and if it throws the layer state is as it was. *)
Lemma allocate_outcome props w r w' :
  _setupTransformFeedback_allocate props w = (r, w') ->
  (forall h, h < nextHandle (gpu w) -> buffers (gpu w') !! h = buffers (gpu w) !! h)
  /\ (forall e, r = Throw e -> state w' = state w).
Proof.
  unfold _setupTransformFeedback_allocate. unfold bind.
  destruct (new_Float32Array _ w) as [[d1 | e1] w1] eqn:E1;
    apply new_Float32Array_pure in E1 as ->; [| intros [= <- <-]; by split].
  destruct (new_Buffer d1 w) as [[h1 | e2] w2] eqn:E2;
    apply new_Buffer_outcome in E2 as [(e & [= ] & ->) | ([= ] & ->)];
    [| intros [= <- <-]; by split]. subst h1.
  destruct (new_Float32Array _ _) as [[d2 | e3] w3] eqn:E3;
    apply new_Float32Array_pure in E3 as ->.
  2:{ intros [= <- <-]. split; [| reflexivity].
      intros h Hh; cbn [gpu withGPUState afterSetState];
      rewrite !GPU_alloc_lookup_old
        by (cbn [nextHandle GPU_alloc gpu withGPUState afterSetState]; lia);
      reflexivity. }
  destruct (new_Buffer d2 _) as [[h2 | e4] w4] eqn:E4;
    apply new_Buffer_outcome in E4 as [(e & [= ] & ->) | ([= ] & ->)].
  2:{ intros [= <- <-]. split; [| reflexivity].
      intros h Hh; cbn [gpu withGPUState afterSetState];
      rewrite !GPU_alloc_lookup_old
        by (cbn [nextHandle GPU_alloc gpu withGPUState afterSetState]; lia);
      reflexivity. }
  subst h2.
  destruct (agesArray props _) as [[arr | e5] w5] eqn:E5;
    apply agesArray_pure in E5 as ->.
  2:{ intros [= <- <-]. split; [| reflexivity].
      intros h Hh; cbn [gpu withGPUState afterSetState];
      rewrite !GPU_alloc_lookup_old
        by (cbn [nextHandle GPU_alloc gpu withGPUState afterSetState]; lia);
      reflexivity. }
  destruct (new_Buffer _ _) as [[h3 | e6] w6] eqn:E6;
    apply new_Buffer_outcome in E6 as [(e & [= ] & ->) | ([= ] & ->)].
  2:{ intros [= <- <-]. split; [| reflexivity].
      intros h Hh; cbn [gpu withGPUState afterSetState];
      rewrite !GPU_alloc_lookup_old
        by (cbn [nextHandle GPU_alloc gpu withGPUState afterSetState]; lia);
      reflexivity. }
  subst h3. unfold setState. intros [= <- <-]. split; [| intros e; discriminate].
  intros h Hh; cbn [gpu withGPUState afterSetState];
      rewrite !GPU_alloc_lookup_old
        by (cbn [nextHandle GPU_alloc gpu withGPUState afterSetState]; lia);
      reflexivity.
Qed.

(** ** The aging shift *)

Lemma f32_at_take (b : list byte) (k i : nat) :
  Float32.BYTES_PER_ELEMENT * (i + 1) <= k ->
  Float32.f32_at (take k b) i = Float32.f32_at b i.
Proof.
  intros H. unfold Float32.f32_at.
  rewrite !take_drop_commute, take_take. do 2 f_equal. lia.
Qed.

Lemma f32_at_app_r (l k : list byte) (n i : nat) :
  length l = Float32.BYTES_PER_ELEMENT * n ->
  Float32.f32_at (l ++ k) (n + i) = Float32.f32_at k i.
Proof.
  intros H. unfold Float32.f32_at. f_equal.
  replace (Float32.BYTES_PER_ELEMENT * (n + i))
    with (length l + Float32.BYTES_PER_ELEMENT * i) by lia.
  apply drop_app_add.
Qed.

Lemma feedbackOutput_record (u : Uniforms) (k i : nat) (src : list byte) :
  i < k ->
  take VEC3_BYTES (drop (VEC3_BYTES * i) (feedbackOutput vs u k src))
  = Vec3_bytes (vs u i (take VEC3_BYTES (drop (VEC3_BYTES * i) src))).
Proof.
  intros Hi. replace k with (i + S (k - S i)) by lia.
  unfold feedbackOutput at 1. rewrite seq_app, flat_map_app.
  fold (feedbackOutput vs u i src).
  rewrite drop_app_length' by (by rewrite length_feedbackOutput).
  cbn [seq flat_map]. rewrite Nat.add_0_l.
  by rewrite take_app_length' by (by rewrite length_Vec3_bytes).
Qed.

Lemma record_app_take (src rest : list byte) (n i : nat) :
  i < n ->
  VEC3_BYTES * n <= length src ->
  take VEC3_BYTES (drop (VEC3_BYTES * i) (take (VEC3_BYTES * n) src ++ rest))
  = take VEC3_BYTES (drop (VEC3_BYTES * i) src).
Proof.
  intros Hi Hlen.
  assert (HlA : length (take (VEC3_BYTES * n) src) = VEC3_BYTES * n)
    by (rewrite length_take; lia).
  rewrite drop_app_le by (rewrite HlA; unfold VEC3_BYTES; lia).
  rewrite take_app_le
    by (rewrite length_drop, HlA; unfold VEC3_BYTES; lia).
  rewrite !take_drop_commute, take_take. do 2 f_equal. unfold VEC3_BYTES. lia.
Qed.

(** C1: with maxAge M >= 1 and an image bound, one pass first shifts by a
    single bulk copy: the source buffer becomes its own band 0 followed by
    bands 0 .. M-2 of the target buffer as it was, so source band a+1 is the
    target's former band a for every a in [0, M-2] (numParticles*(maxAge-1)*3
    floats, offset by one band of numParticles*3 floats), the source's former
    older bands are gone, and nothing is copied when M = 1. The target
    buffer then holds the newly advected result: for every particle i the
    12-byte record i of the target's band 0 is the vertex shader's output
    for vertex i on record i of the source's band 0, under the uniforms of
    this frame (texture, bounds, sizes, viewport sphere, clamped bounds,
    speed scale, time and the seed drawn from the random source), and every
    record of the target is the shader's output for its vertex on the
    shifted source. Last, the roles of the two buffers are exchanged. *)
Theorem aging_shift_then_advect props ctx img w hs ht ha :
  let N := numParticles props in
  let M := maxAge props in
  let n := Z.to_nat N in
  let m := Z.to_nat M in
  let u := frameUniforms img props ctx (randomSource w (randomDraws w)) in
  (1 <= M)%Z ->
  image props = Some img ->
  Allocated N M w hs ht ha ->
  exists s t ds dt ds' dt' w',
    currentBinding (state w) = Some (mkBinding s t)
    /\ buffers (gpu w) !! s = Some ds
    /\ buffers (gpu w) !! t = Some dt
    /\ _runTransformFeedback vs props ctx w = (Normal tt, w')
    /\ buffers (gpu w') !! s = Some ds'
    /\ ds' = take (VEC3_BYTES * n) ds ++ take (VEC3_BYTES * n * (m - 1)) dt
    /\ (forall a, a + 2 <= m -> band n (a + 1) ds' = band n a dt)
    /\ (forall j, j < 3 * n * (m - 1) ->
          Float32.f32_at ds' (3 * n + j) = Float32.f32_at dt j)
    /\ band n 0 ds' = band n 0 ds
    /\ (m = 1 -> ds' = ds)
    /\ buffers (gpu w') !! t = Some dt'
    /\ dt' = feedbackOutput vs u (n * m) ds'
    /\ band n 0 dt' = feedbackOutput vs u n ds'
    /\ length dt' = VEC3_BYTES * (n * m)
    /\ (forall i, i < n ->
          take VEC3_BYTES (drop (VEC3_BYTES * i) dt')
          = Vec3_bytes (vs u i (take VEC3_BYTES (drop (VEC3_BYTES * i) ds))))
    /\ (forall i, i < n * m ->
          take VEC3_BYTES (drop (VEC3_BYTES * i) dt')
          = Vec3_bytes (vs u i (take VEC3_BYTES (drop (VEC3_BYTES * i) ds'))))
    /\ u = {| u_speedTexture := img;
              u_bounds := bounds props;
              u_numParticles := N;
              u_maxAge := M;
              u_viewportSphere :=
                if truthy (resolution (viewport ctx)) then 1%Z else 0%Z;
              u_viewportSphereCenter :=
                (longitude (viewport ctx), latitude (viewport ctx));
              u_viewportSphereRadius := viewportSphereRadius (viewport ctx);
              u_viewportBounds := viewportBounds (viewport ctx);
              u_viewportSpeedFactor :=
                (speedFactor props * devicePixelRatio ctx
                 / Rpower 2 (zoom (viewport ctx)))%R;
              u_time := timeline_getTime ctx;
              u_seed := randomSource w (randomDraws w) |}
    /\ randomDraws w' = S (randomDraws w)
    /\ currentBinding (state w') = Some (mkBinding t s).
Proof.
  intros N M n m u HM Himg HA.
  destruct (Allocated_binding _ _ _ _ _ _ HA) as (tr & s & t & Htr & Hbs & Hb & Hb' & Hc & Hst).
  destruct (Allocated_buffers _ _ _ _ _ _ s t HA Hst)
    as (ds & dt & Hs & Ht & Lds & Ldt & Hne & Hsa & Hta).
  assert (HN : (0 <= N)%Z) by nia.
  assert (Hlds : length ds = VEC3_BYTES * n * m) by (unfold VEC3_BYTES; nia).
  assert (Hldt : length dt = VEC3_BYTES * n * m) by (unfold VEC3_BYTES; nia).
  assert (Hm : 1 <= m) by lia.
  assert (HlA : length (take (VEC3_BYTES * n) ds) = VEC3_BYTES * n)
    by (rewrite length_take; nia).
  exists s, t, ds, dt,
    (take (VEC3_BYTES * n) ds ++ take (VEC3_BYTES * n * (m - 1)) dt),
    (feedbackOutput vs u (n * m)
       (take (VEC3_BYTES * n) ds ++ take (VEC3_BYTES * n * (m - 1)) dt)),
    (afterRun vs props ctx img tr (mkBinding s t) w).
  split; [unfold currentBinding; by rewrite Htr |].
  split; [exact Hs |]. split; [exact Ht |].
  split; [by apply runTransformFeedback_run |].
  rewrite (afterRun_Allocated props ctx img w hs ht ha tr s t ds dt) by assumption.
  fold N M. rewrite (agedSource_bulk N M ds dt) by assumption. fold n m.
  cbn [gpu state buffers randomDraws].
  split; [rewrite lookup_insert_ne by auto; apply lookup_insert_eq |].
  split; [reflexivity |].
  split.
  { intros a Ha. replace (a + 1) with (S a) by lia.
    rewrite band_succ_app by exact HlA. apply band_take. nia. }
  split.
  { intros j Hj. rewrite f32_at_app_r
      by (rewrite HlA; unfold VEC3_BYTES, Float32.BYTES_PER_ELEMENT; lia).
    apply f32_at_take. unfold VEC3_BYTES, Float32.BYTES_PER_ELEMENT. lia. }
  split.
  { unfold band. rewrite !Nat.mul_0_l, !drop_0.
    by rewrite take_app_length' by (symmetry; exact HlA). }
  split.
  { intros ->. replace (VEC3_BYTES * n * (1 - 1)) with 0 by lia.
    rewrite take_0, app_nil_r. apply take_ge. lia. }
  split.
  { rewrite lookup_insert_eq. do 2 f_equal. unfold N, M, n, m. nia. }
  split; [reflexivity |].
  split.
  { unfold band. rewrite !Nat.mul_0_l, !drop_0.
    replace (n * m) with (n + n * (m - 1)) by nia.
    apply feedbackOutput_take. }
  split; [apply length_feedbackOutput |].
  split.
  { intros i Hi. rewrite feedbackOutput_record by nia. do 2 f_equal.
    apply record_app_take; [exact Hi | nia]. }
  split; [intros i Hi; by apply feedbackOutput_record |].
  split; [reflexivity |].
  split; [reflexivity |].
  unfold currentBinding, swappedState. cbn [transform bindings currentIndex]. exact Hb'.
Qed.

(** ** Allocation *)

(** C2: for numParticles N in [1, 1000000] and maxAge M in [1, 255], setup
    leaves two position buffers of N*M*3 floats each and an age buffer of
    N*M floats whose element i is floor(i/N); no later step, draw, clear or
    size-preserving update changes the age buffer. *)
Theorem allocation_layout props w :
  let N := numParticles props in
  let M := maxAge props in
  (1 <= N <= 1000000)%Z ->
  (1 <= M <= 255)%Z ->
  Releasable (state w) ->
  (28 * (N * M) <= Z.of_nat (freeBytes (gpu w)))%Z ->
  exists w' hs ht ha ds dt da,
    _setupTransformFeedback props w = (Normal tt, w')
    /\ sourcePositions (state w') = Some hs
    /\ targetPositions (state w') = Some ht
    /\ ages (state w') = Some ha
    /\ buffers (gpu w') !! hs = Some ds
    /\ buffers (gpu w') !! ht = Some dt
    /\ buffers (gpu w') !! ha = Some da
    /\ Z.of_nat (Float32.f32_length ds) = (N * M * 3)%Z
    /\ Z.of_nat (Float32.f32_length dt) = (N * M * 3)%Z
    /\ Z.of_nat (Float32.f32_length da) = (N * M)%Z
    /\ (forall i, (Z.of_nat i < N * M)%Z ->
          Float32.f32_at da i = Float32.f32_of_Z (Z.of_nat i / N)
          /\ Float32.to_Z (Float32.f32_at da i) = Some (Z.of_nat i / N)%Z)
    /\ (forall cs, Forall (configuredFor N M) cs ->
          exists w'',
            performAll vs cs w' = (Normal tt, w'')
            /\ ages (state w'') = Some ha
            /\ buffers (gpu w'') !! ha = Some da).
Proof.
  intros N M HN HM Hrel Hfree.
  assert (Hsetup : exists g,
    _setupTransformFeedback props w
    = (Normal tt, afterSetState w (allocatedGPU N M g) (allocatedState N M (nextHandle g)))).
  { destruct (initialized (state w)) eqn:Hi.
    - destruct (Hrel Hi) as ([hs Hs] & [ht Ht] & [ha Ha] & [tr Htr]).
      exists (releasedGPU hs ht ha (gpu w)). rewrite releasedGPU_nextHandle.
      eapply setup_again; eauto; lia.
    - exists (gpu w). apply setup_fresh; auto; lia. }
  destruct Hsetup as (g & Hsetup).
  destruct (allocatedGPU_lookups N M g) as (Hs & Ht & Ha & _ & _).
  pose proof (allocated_Allocated N M w g ltac:(lia) ltac:(lia)) as HA.
  set (n := Z.to_nat N) in *. set (m := Z.to_nat M) in *.
  eexists _, _, _, _, _, _, _.
  split; [exact Hsetup |].
  split; [reflexivity |]. split; [reflexivity |]. split; [reflexivity |].
  split; [exact Hs |]. split; [exact Ht |]. split; [exact Ha |].
  split; [rewrite (f32_length_bytes _ (Z.to_nat (N * M * 3))) by apply length_zeros; lia |].
  split; [rewrite (f32_length_bytes _ (Z.to_nat (N * M * 3))) by apply length_zeros; lia |].
  split.
  { rewrite (f32_length_bytes _ (n * m))
      by (by rewrite length_from_list, length_concat_ageRows). lia. }
  split.
  { intros i Hi.
    assert (Hlk : concat (ageRows n m 0) !! i = Some (Z.of_nat i / N)%Z).
    { rewrite lookup_concat_ageRows by lia. f_equal.
      rewrite Z.add_0_l, Nat2Z.inj_div. unfold n. by rewrite Z2Nat.id by lia. }
    rewrite (f32_at_from_list _ _ _ Hlk). split; [reflexivity |].
    apply to_Z_f32_of_Z. split.
    - apply Z.div_pos; lia.
    - apply Z.div_lt_upper_bound; nia. }
  intros cs Hcs.
  destruct (performAll_preserves N M cs _ _ _ _ ltac:(lia) Hcs HA) as (w'' & Hp & HA'' & Hk).
  exists w''. split; [exact Hp |]. split; [apply HA'' |].
  rewrite Hk. exact Ha.
Qed.

(** ** Stepping without a velocity field *)

(** C3: with no image bound, [step()] completes normally and leaves the GL
    resources (the source, target and age buffers among them) and the layer
    state exactly as they were; only the redraw flag is set. *)
Theorem step_without_image_is_noop props ctx w :
  image props = None ->
  exists w',
    step vs props ctx w = (Normal tt, w')
    /\ gpu w' = gpu w
    /\ state w' = state w
    /\ (forall h, buffers (gpu w') !! h = buffers (gpu w) !! h)
    /\ kernelLog w' = kernelLog w
    /\ randomDraws w' = randomDraws w.
Proof.
  intros Himg. eexists. split.
  - unfold step. erewrite bind_Normal by (apply runTransformFeedback_skip; exact Himg).
    reflexivity.
  - repeat split; reflexivity.
Qed.

(** ** Teardown *)

(** C4, as the code behaves: the first teardown of an allocated layer
    releases the three buffers but leaves [initialized] true, so a second
    teardown passes the guard and throws a TypeError on the [undefined]
    [sourcePositions]. *)
Theorem second_teardown_throws (N M : Z) w hs ht ha :
  Allocated N M w hs ht ha ->
  exists w1,
    finalizeState w = (Normal tt, w1)
    /\ initialized (state w1) = true
    /\ sourcePositions (state w1) = None
    /\ buffers (gpu w1) !! hs = None
    /\ buffers (gpu w1) !! ht = None
    /\ buffers (gpu w1) !! ha = None
    /\ finalizeState w1 = (Throw TypeError, w1).
Proof.
  intros HA.
  destruct (Allocated_binding _ _ _ _ _ _ HA) as (tr & _ & _ & Htr & _).
  destruct HA as [A1 _ _ A4 A5 A6 _ _ _ _ _ _].
  exists (afterSetState w (releasedGPU hs ht ha (gpu w)) (releasedState (state w))).
  split; [by eapply deleteTransformFeedback_ok |].
  split; [reflexivity |]. split; [reflexivity |].
  cbn [gpu withGPUState afterSetState]. rewrite !releasedGPU_lookup.
  repeat (split; [case_decide; [reflexivity | exfalso; tauto] |]).
  by apply deleteTransformFeedback_undefined.
Qed.

(** Teardown of a layer that was never set up does nothing. *)
Lemma teardown_uninitialized w :
  initialized (state w) = false -> finalizeState w = (Normal tt, w).
Proof. apply deleteTransformFeedback_uninitialized. Qed.

(** ** Reallocation *)

(** C5, as the code behaves: reallocation releases first and has no
    rollback. If setup of an allocated layer throws, the three previous
    buffers are already released and the layer state refers to no buffer and
    no transform, old or new. *)
Theorem failed_reallocation_has_released (N M : Z) props w hs ht ha e w' :
  Allocated N M w hs ht ha ->
  _setupTransformFeedback props w = (Throw e, w') ->
  sourcePositions (state w') = None
  /\ targetPositions (state w') = None
  /\ ages (state w') = None
  /\ transform (state w') = None
  /\ buffers (gpu w') !! hs = None
  /\ buffers (gpu w') !! ht = None
  /\ buffers (gpu w') !! ha = None.
Proof.
  intros HA Hsetup.
  destruct (Allocated_binding _ _ _ _ _ _ HA) as (tr & _ & _ & Htr & _).
  destruct HA as [A1 _ _ A4 A5 A6 _ _ (Hh1 & Hh2 & Hh3) _ _ _].
  unfold _setupTransformFeedback in Hsetup.
  unfold bind at 1 in Hsetup. unfold getState at 1 in Hsetup. rewrite A1 in Hsetup.
  erewrite bind_Normal in Hsetup by (by eapply deleteTransformFeedback_ok).
  apply allocate_outcome in Hsetup as [Hold Hst].
  cbn [gpu state withGPUState afterSetState] in Hold, Hst.
  rewrite releasedGPU_nextHandle in Hold.
  rewrite (Hst e eq_refl).
  do 4 (split; [reflexivity |]).
  rewrite !Hold by assumption. rewrite !releasedGPU_lookup.
  repeat split; (case_decide; [reflexivity | exfalso; tauto]).
Qed.

(** ** Clearing *)

(** C6: [clear()] on an allocated layer completes normally, overwrites both
    position buffers in place with zeros (every byte, hence every float, is
    zero), and leaves the age buffer and the layer state as they were. *)
Theorem clear_zeroes_positions (N M : Z) w hs ht ha :
  Allocated N M w hs ht ha ->
  exists w' ds' dt',
    clear w = (Normal tt, w')
    /\ buffers (gpu w') !! hs = Some ds'
    /\ buffers (gpu w') !! ht = Some dt'
    /\ Z.of_nat (Float32.f32_length ds') = (N * M * 3)%Z
    /\ Z.of_nat (Float32.f32_length dt') = (N * M * 3)%Z
    /\ Forall (fun b => b = x00) ds'
    /\ Forall (fun b => b = x00) dt'
    /\ (forall i, (Z.of_nat i < N * M * 3)%Z ->
          Float32.f32_at ds' i = Float32.f32_zero
          /\ Float32.f32_at dt' i = Float32.f32_zero)
    /\ buffers (gpu w') !! ha = buffers (gpu w) !! ha
    /\ state w' = state w.
Proof.
  intros HA. pose proof HA as [_ _ _ _ _ _ _ (Hd1 & Hd2 & Hd3) _ (ds & _ & Ls) _ _].
  assert (HNM : (0 <= N * M * 3)%Z) by lia.
  eexists _, _, _. split; [by eapply clear_Allocated |].
  cbn [gpu state buffers].
  split; [rewrite lookup_insert_ne by auto; apply lookup_insert_eq |].
  split; [apply lookup_insert_eq |].
  split; [rewrite (f32_length_bytes _ (Z.to_nat (N * M * 3))) by apply length_zeros; lia |].
  split; [rewrite (f32_length_bytes _ (Z.to_nat (N * M * 3))) by apply length_zeros; lia |].
  split; [apply Forall_forall; intros b Hb; unfold Float32.zeros in Hb;
          by apply elem_of_replicate in Hb as [-> _] |].
  split; [apply Forall_forall; intros b Hb; unfold Float32.zeros in Hb;
          by apply elem_of_replicate in Hb as [-> _] |].
  split; [intros i Hi; split; apply f32_at_zeros; lia |].
  split; [by rewrite !lookup_insert_ne by auto | reflexivity].
Qed.

(** ** The random seed *)

(** C10: the seed uniform of a step is the number the ambient
    [Math.random] source yields at that moment. Two steps from the same GL
    resources, layer state, props and context pass different uniforms to the
    kernel as soon as the ambient sources yield different numbers, and
    equal ones, with equal resulting buffers and state, when they yield the
    same number. *)
Theorem step_seed_is_ambient props ctx img w b :
  image props = Some img ->
  currentBinding (state w) = Some b ->
  (forall rs, exists w',
      step vs props ctx (withRandomSource w rs) = (Normal tt, w')
      /\ kernelLog w'
         = frameUniforms img props ctx (rs (randomDraws w)) :: kernelLog w
      /\ (forall u, head (kernelLog w') = Some u -> u_seed u = rs (randomDraws w)))
  /\ (forall rs1 rs2 w1 w2,
        step vs props ctx (withRandomSource w rs1) = (Normal tt, w1) ->
        step vs props ctx (withRandomSource w rs2) = (Normal tt, w2) ->
        rs1 (randomDraws w) <> rs2 (randomDraws w) ->
        head (kernelLog w1) <> head (kernelLog w2))
  /\ (forall rs1 rs2 w1 w2,
        step vs props ctx (withRandomSource w rs1) = (Normal tt, w1) ->
        step vs props ctx (withRandomSource w rs2) = (Normal tt, w2) ->
        rs1 (randomDraws w) = rs2 (randomDraws w) ->
        gpu w1 = gpu w2 /\ state w1 = state w2 /\ kernelLog w1 = kernelLog w2).
Proof.
  intros Himg Hb. unfold currentBinding in Hb.
  destruct (transform (state w)) as [tr |] eqn:Htr; [| discriminate].
  assert (Hstep : forall rs,
    step vs props ctx (withRandomSource w rs)
    = (Normal tt,
       mkWorld (gpu (afterRun vs props ctx img tr b (withRandomSource w rs)))
               (swappedState (state w) tr) true rs (S (randomDraws w))
               (frameUniforms img props ctx (rs (randomDraws w)) :: kernelLog w))).
  { intros rs. unfold step.
    erewrite bind_Normal by (by apply runTransformFeedback_run).
    reflexivity. }
  split; [| split].
  - intros rs. eexists. split; [apply Hstep |]. split; [reflexivity |].
    intros u [= <-]. reflexivity.
  - intros rs1 rs2 w1 w2 H1 H2 Hne. rewrite Hstep in H1, H2.
    injection H1 as <-. injection H2 as <-. simpl.
    intros [= Heq]. apply Hne, Heq.
  - intros rs1 rs2 w1 w2 H1 H2 Heq. rewrite Hstep in H1, H2.
    injection H1 as <-. injection H2 as <-.
    cbn [gpu state kernelLog afterRun withRandomSource randomSource randomDraws].
    rewrite Heq. repeat split.
Qed.

End LayerFacts.

(** * Worked examples *)

Lemma exampleWorld_Allocated : Allocated 2 3 exampleWorld 0 1 2.
Proof.
  split; try reflexivity.
  - exists 0. split; [lia | reflexivity].
  - repeat split; discriminate.
  - simpl. lia.
  - exists exampleSource. split; reflexivity.
  - exists exampleTarget. split; reflexivity.
  - eexists. split; reflexivity.
Defined.

Lemma smallWorld_Allocated : Allocated 1 1 smallWorld 0 1 2.
Proof.
  split; try reflexivity.
  - exists 0. split; [lia | reflexivity].
  - repeat split; discriminate.
  - simpl. lia.
  - eexists. split; reflexivity.
  - eexists. split; reflexivity.
  - eexists. split; reflexivity.
Defined.

(** C1 on the example layer: after one pass the former source buffer holds
    its own band 0 followed by the target's former bands 0 and 1, record 0
    of the former target buffer is what the example shader writes, and the
    roles of the buffers are exchanged. *)
Lemma aging_shift_then_advect_example :
  exists w' dt',
    _runTransformFeedback exampleShader (exampleProps 2 3 (Some tt))
      exampleContext exampleWorld = (Normal tt, w')
    /\ buffers (gpu w') !! 0
       = Some (replicate 24 x50 ++ replicate 24 xa0 ++ replicate 24 xa1)
    /\ buffers (gpu w') !! 1 = Some dt'
    /\ take 12 dt'
       = [x01; x00; x00; x00; x02; x00; x00; x00; x03; x00; x00; x00]
    /\ currentBinding (state w') = Some (mkBinding 1 0).
Proof.
  destruct (aging_shift_then_advect exampleShader (exampleProps 2 3 (Some tt))
              exampleContext tt exampleWorld 0 1 2)
    as (s & t & ds & dt & ds' & dt' & w' & Hb & Hs & Ht & Hrun & Hs' & Hds'
        & _ & _ & _ & _ & Ht' & _ & _ & _ & Hrec & _ & _ & _ & Hb').
  - simpl. lia.
  - reflexivity.
  - exact exampleWorld_Allocated.
  - vm_compute in Hb. injection Hb as <- <-.
    vm_compute in Hs. injection Hs as <-.
    vm_compute in Ht. injection Ht as <-.
    exists w', dt'. split; [exact Hrun |].
    split; [rewrite Hs', Hds'; reflexivity |].
    split; [exact Ht' |]. split; [| exact Hb'].
    exact (Hrec 0 ltac:(simpl; lia)).
Defined.

(** C2 on a fresh world: 2 particles of 3 ages. *)
Lemma allocation_layout_example :
  exists w' ha da,
    _setupTransformFeedback (exampleProps 2 3 None) (freshWorld 1000) = (Normal tt, w')
    /\ ages (state w') = Some ha
    /\ buffers (gpu w') !! ha = Some da
    /\ Z.of_nat (Float32.f32_length da) = 6%Z
    /\ forall i, (Z.of_nat i < 6)%Z ->
         Float32.to_Z (Float32.f32_at da i) = Some (Z.of_nat i / 2)%Z.
Proof.
  destruct (allocation_layout exampleShader (exampleProps 2 3 None) (freshWorld 1000))
    as (w' & hs & ht & ha & ds & dt & da & Hsetup & _ & _ & Ha & _ & _ & Hda
        & _ & _ & Hlen & Hage & _).
  - simpl. lia.
  - simpl. lia.
  - intros Hi. discriminate Hi.
  - simpl. lia.
  - exists w', ha, da. repeat split; try assumption.
    intros i Hi. apply (Hage i Hi).
Defined.

(** C3 on the example layer with no image bound. *)
Lemma step_without_image_example :
  exists w',
    step exampleShader (exampleProps 2 3 None) exampleContext exampleWorld
    = (Normal tt, w')
    /\ gpu w' = gpu exampleWorld
    /\ state w' = state exampleWorld.
Proof.
  destruct (step_without_image_is_noop exampleShader (exampleProps 2 3 None)
              exampleContext exampleWorld)
    as (w' & Hstep & Hg & Hs & _).
  - reflexivity.
  - exists w'. repeat split; assumption.
Defined.

(** C4 on the example layer: the second teardown throws. *)
Lemma second_teardown_throws_example :
  exists w1,
    finalizeState exampleWorld = (Normal tt, w1)
    /\ finalizeState w1 = (Throw TypeError, w1).
Proof.
  destruct (second_teardown_throws 2 3 exampleWorld 0 1 2)
    as (w1 & H1 & _ & _ & _ & _ & _ & H2).
  - exact exampleWorld_Allocated.
  - exists w1. split; assumption.
Defined.

(** Idempotence of teardown as the specification words it fails on the
    example layer. *)
Lemma teardown_not_idempotent : ~ TeardownIdempotent exampleWorld.
Proof.
  intros H. specialize (H (snd (finalizeState exampleWorld)) eq_refl).
  discriminate H.
Qed.

(** C5 as the specification words it fails: growing the small layer to 2
    particles exhausts the 48 bytes at the third allocation; the previous
    buffers are gone by then. *)
Lemma reallocation_not_atomic :
  ~ ReallocationAtomic (exampleProps 2 1 None) smallWorld.
Proof.
  intros H.
  destruct (H OutOfMemory
              (snd (_setupTransformFeedback (exampleProps 2 1 None) smallWorld))
              eq_refl) as [Hst _].
  vm_compute in Hst. discriminate Hst.
Qed.

(** C5 as the code behaves, on the same input. *)
Lemma failed_reallocation_example :
  let w' := snd (_setupTransformFeedback (exampleProps 2 1 None) smallWorld) in
  _setupTransformFeedback (exampleProps 2 1 None) smallWorld = (Throw OutOfMemory, w')
  /\ sourcePositions (state w') = None
  /\ buffers (gpu w') !! 0 = None
  /\ buffers (gpu w') !! 1 = None
  /\ buffers (gpu w') !! 2 = None.
Proof.
  intros w'. split; [reflexivity |].
  destruct (failed_reallocation_has_released 1 1 (exampleProps 2 1 None)
              smallWorld 0 1 2 OutOfMemory w')
    as (Hs & _ & _ & _ & H0 & H1 & H2).
  - exact smallWorld_Allocated.
  - reflexivity.
  - repeat split; assumption.
Defined.

(** C6 on the example layer. *)
Lemma clear_zeroes_positions_example :
  exists w' ds' dt',
    clear exampleWorld = (Normal tt, w')
    /\ buffers (gpu w') !! 0 = Some ds'
    /\ buffers (gpu w') !! 1 = Some dt'
    /\ Z.of_nat (Float32.f32_length ds') = 18%Z
    /\ Z.of_nat (Float32.f32_length dt') = 18%Z
    /\ Forall (fun b => b = x00) ds'
    /\ Forall (fun b => b = x00) dt'
    /\ buffers (gpu w') !! 2 = buffers (gpu exampleWorld) !! 2
    /\ state w' = state exampleWorld.
Proof.
  destruct (clear_zeroes_positions 2 3 exampleWorld 0 1 2)
    as (w' & ds' & dt' & Hclear & Hs & Ht & Ls & Lt & Zs & Zt & _ & Ha & Hst).
  - exact exampleWorld_Allocated.
  - exists w', ds', dt'. repeat split; assumption.
Defined.

(** C10 on the example layer: ambient sources that yield 0 and 1 give
    different uniforms from the same state and inputs. *)
Lemma step_seed_is_ambient_example :
  exists w1 w2,
    step exampleShader (exampleProps 2 3 (Some tt)) exampleContext
      (withRandomSource exampleWorld (fun _ => 0%R)) = (Normal tt, w1)
    /\ step exampleShader (exampleProps 2 3 (Some tt)) exampleContext
         (withRandomSource exampleWorld (fun _ => 1%R)) = (Normal tt, w2)
    /\ head (kernelLog w1) <> head (kernelLog w2).
Proof.
  destruct (step_seed_is_ambient exampleShader (exampleProps 2 3 (Some tt))
              exampleContext tt exampleWorld (mkBinding 0 1))
    as (Hrun & Hdiff & _).
  - reflexivity.
  - reflexivity.
  - destruct (Hrun (fun _ => 0%R)) as (w1 & H1 & _).
    destruct (Hrun (fun _ => 1%R)) as (w2 & H2 & _).
    exists w1, w2. split; [exact H1 |]. split; [exact H2 |].
    apply (Hdiff _ _ _ _ H1 H2). simpl. lra.
Defined.

(** * Further properties of the layer *)

Section Outcomes.
Context {Texture : Type} (vs : @Uniforms Texture -> nat -> list byte -> Vec3).
Implicit Types (w : @World Texture) (props : @Props Texture) (ctx : Context).
Implicit Types (g : GPU) (st : LayerState).

(** ** Every outcome of one pass *)

Lemma runTransformFeedback_outcomes props ctx w r w' :
  _runTransformFeedback vs props ctx w = (r, w') ->
  (r = Normal tt /\ w' = w /\ image props = None)
  \/ (r = Throw TypeError /\ w' = w /\ currentBinding (state w) = None)
  \/ (exists img tr b,
        image props = Some img /\ transform (state w) = Some tr
        /\ bindings tr !! currentIndex tr = Some b
        /\ r = Normal tt /\ w' = afterRun vs props ctx img tr b w).
Proof.
  intros H. destruct (image props) as [img |] eqn:Himg.
  2:{ rewrite runTransformFeedback_skip in H by exact Himg.
      injection H as <- <-. left. by repeat split. }
  right. unfold currentBinding.
  destruct (transform (state w)) as [tr |] eqn:Htr.
  - destruct (bindings tr !! currentIndex tr) as [b |] eqn:Hb.
    + rewrite (runTransformFeedback_run vs props ctx w img tr b) in H by assumption.
      injection H as <- <-. right. exists img, tr, b. by repeat split.
    + left. unfold _runTransformFeedback in H.
      unfold bind at 1 in H. unfold getState at 1 in H. rewrite Himg, Htr in H.
      unfold bind at 1 in H. unfold deref at 1, ret at 1 in H.
      unfold bind at 1 in H. rewrite Hb in H. unfold deref at 1, throw in H.
      injection H as <- <-. by repeat split.
  - left. unfold _runTransformFeedback in H.
    unfold bind at 1 in H. unfold getState at 1 in H. rewrite Himg, Htr in H.
    unfold bind at 1 in H. unfold deref at 1, throw in H.
    injection H as <- <-. by repeat split.
Qed.

(** ** Shapes *)

Lemma sameShape_refl g : sameShape g g.
Proof. by repeat split. Qed.

Lemma sameShape_trans g1 g2 g3 :
  sameShape g1 g2 -> sameShape g2 g3 -> sameShape g1 g3.
Proof.
  intros (A1 & A2 & A3) (B1 & B2 & B3).
  split; [congruence |]. split; [congruence |].
  intros h. by rewrite B3, A3.
Qed.

Lemma sameShape_insert g (h : nat) (d d' : list byte) :
  buffers g !! h = Some d -> length d' = length d ->
  sameShape g (mkGPU (<[h := d']> (buffers g)) (nextHandle g) (freeBytes g)).
Proof.
  intros Hd Hl. repeat split. intros h'. simpl.
  destruct (decide (h = h')) as [<- |].
  - rewrite lookup_insert_eq, Hd. simpl. by rewrite Hl.
  - by rewrite lookup_insert_ne.
Qed.

Lemma GPU_copyData_shape (dst src : nat) (ro wo size : Z) g :
  sameShape g (GPU_copyData dst src ro wo size g).
Proof.
  unfold GPU_copyData.
  destruct (buffers g !! src) as [rd |] eqn:Hrd; [| apply sameShape_refl].
  destruct (buffers g !! dst) as [wr |] eqn:Hwr; [| apply sameShape_refl].
  match goal with |- context [if ?c then _ else _] => destruct c eqn:Hc end;
    [| apply sameShape_refl].
  apply sameShape_insert with wr; [exact Hwr |].
  repeat (apply andb_prop in Hc as [Hc ?]).
  apply length_overwrite. rewrite length_take, length_drop. lia.
Qed.

Lemma GPU_subData_shape (dst : nat) (data : list byte) g :
  sameShape g (GPU_subData dst data g).
Proof.
  unfold GPU_subData.
  destruct (buffers g !! dst) as [wr |] eqn:Hwr; [| apply sameShape_refl].
  destruct (Nat.leb_spec (length data) (length wr)); [| apply sameShape_refl].
  apply sameShape_insert with wr; [exact Hwr |].
  apply length_overwrite. lia.
Qed.

Lemma GPU_feedback_shape (b : Binding) (count : Z) (u : Uniforms) g :
  sameShape g (GPU_feedback vs b count u g).
Proof.
  unfold GPU_feedback.
  destruct (buffers g !! sourcePosition b) as [src |] eqn:Hs; [| apply sameShape_refl].
  destruct (buffers g !! targetPosition b) as [fb |] eqn:Ht; [| apply sameShape_refl].
  cbv zeta.
  match goal with |- context [if ?c then _ else _] => destruct c eqn:Hc end;
    [| apply sameShape_refl].
  apply sameShape_insert with fb; [exact Ht |].
  apply andb_prop in Hc as [_ Hc]. apply Nat.leb_le in Hc.
  apply length_overwrite. rewrite length_feedbackOutput. lia.
Qed.

Lemma runTransformFeedback_shape props ctx w r w' :
  _runTransformFeedback vs props ctx w = (r, w') -> sameShape (gpu w) (gpu w').
Proof.
  intros H. apply runTransformFeedback_outcomes in H
    as [(_ & -> & _) | [(_ & -> & _) | (img & tr & b & _ & _ & _ & _ & ->)]];
    try apply sameShape_refl.
  unfold afterRun. cbn [gpu].
  eapply sameShape_trans; [apply GPU_copyData_shape | apply GPU_feedback_shape].
Qed.

Lemma clear_shape w r w' : clear w = (r, w') -> sameShape (gpu w) (gpu w').
Proof.
  unfold clear. unfold bind at 1. unfold getState at 1.
  destruct (sourcePositions (state w)) as [sp |].
  2:{ unfold bind at 1. unfold deref, throw. intros [= <- <-]. apply sameShape_refl. }
  unfold bind at 1. unfold deref at 1, ret at 1. unfold bind at 1.
  destruct (new_Float32Array _ w) as [[d1 | e1] w1] eqn:E1;
    apply new_Float32Array_pure in E1 as ->;
    [| intros [= <- <-]; apply sameShape_refl].
  unfold bind at 1. unfold Buffer_subData at 1, modifyGPU, bind at 1, getGPU, putGPU.
  cbn [state gpu].
  destruct (targetPositions (state w)) as [tp |].
  2:{ unfold bind at 1. unfold deref, throw. intros [= <- <-]. cbn [gpu].
      apply GPU_subData_shape. }
  unfold bind at 1. unfold deref at 1, ret at 1. unfold bind at 1.
  destruct (new_Float32Array _ _) as [[d2 | e2] w2] eqn:E2;
    apply new_Float32Array_pure in E2 as ->;
    [| intros [= <- <-]; cbn [gpu]; apply GPU_subData_shape].
  unfold bind at 1. unfold Buffer_subData at 1, modifyGPU, bind at 1, getGPU, putGPU.
  unfold setNeedsRedraw. intros [= <- <-]. cbn [gpu].
  eapply sameShape_trans; apply GPU_subData_shape.
Qed.

(** X1: stepping, drawing and clearing never allocate, release or resize:
    whatever the state and whatever the outcome (normal or thrown), the same
    buffers are live afterwards, each with the length it had, and the free
    memory and the next handle are unchanged; the same holds for a
    configuration update that keeps [numParticles] and [maxAge]. *)
Theorem calls_keep_buffer_shapes (c : Call) w r w' :
  keepsAllocation c ->
  perform vs c w = (r, w') ->
  sameShape (gpu w) (gpu w').
Proof.
  intros Hc H. destruct c as [props ctx | props ctx | props oldProps |]; simpl in *.
  - unfold step, bind in H.
    destruct (_runTransformFeedback vs props ctx w) as [[[] | e] w1] eqn:E;
      apply runTransformFeedback_shape in E.
    + unfold setNeedsRedraw in H. by injection H as <- <-.
    + by injection H as <- <-.
  - unfold draw, bind, getState, ret in H. destruct (animate props).
    + destruct (_runTransformFeedback vs props ctx w) as [[[] | e] w1] eqn:E;
        apply runTransformFeedback_shape in E; by injection H as <- <-.
    + injection H as <- <-. apply sameShape_refl.
  - destruct Hc as [HN HM]. unfold updateState in H.
    rewrite HN, HM, !Z.eqb_refl in H. injection H as <- <-. apply sameShape_refl.
  - by eapply clear_shape.
Qed.

(** ** Calls on a layer that has no buffers *)

(** X2: with an image bound but no transform in the layer state (before
    setup, or after teardown), [step()] and an animated [draw()] throw a
    TypeError and change nothing: no buffer is written, no random number
    is drawn and the redraw flag is not set. *)
Theorem step_without_transform_throws props ctx img w :
  image props = Some img ->
  transform (state w) = None ->
  step vs props ctx w = (Throw TypeError, w)
  /\ (animate props = true -> draw vs props ctx w = (Throw TypeError, w)).
Proof.
  intros Himg Htr.
  assert (Hrun : _runTransformFeedback vs props ctx w = (Throw TypeError, w)).
  { destruct (_runTransformFeedback vs props ctx w) as [r w'] eqn:E.
    apply runTransformFeedback_outcomes in E
      as [(_ & _ & E) | [(-> & -> & _) | (i & tr & b & _ & E & _)]];
      [congruence | reflexivity | congruence]. }
  split.
  - unfold step, bind. by rewrite Hrun.
  - intros Ha. unfold draw, bind, getState. by rewrite Ha, Hrun.
Qed.

(** X3: [clear()] on a layer whose [sourcePositions] is undefined (before
    setup, or after teardown) throws a TypeError and changes nothing. *)
Theorem clear_without_buffers_throws w :
  sourcePositions (state w) = None ->
  clear w = (Throw TypeError, w).
Proof.
  intros H. unfold clear. unfold bind at 1. unfold getState at 1. rewrite H.
  reflexivity.
Qed.

(** ** Memory accounting *)

Lemma GPU_delete_live (h : nat) (d : list byte) g :
  buffers g !! h = Some d ->
  GPU_delete h g = mkGPU (delete h (buffers g)) (nextHandle g) (freeBytes g + length d).
Proof. intros H. unfold GPU_delete. by rewrite H. Qed.

Lemma releasedGPU_freeBytes_exact (hs ht ha : nat) (ds dt da : list byte) g :
  hs <> ht -> hs <> ha -> ht <> ha ->
  buffers g !! hs = Some ds -> buffers g !! ht = Some dt -> buffers g !! ha = Some da ->
  freeBytes (releasedGPU hs ht ha g) = freeBytes g + length ds + length dt + length da.
Proof.
  intros H1 H2 H3 Hs Ht Ha. unfold releasedGPU.
  rewrite (GPU_delete_live hs ds g) by exact Hs.
  rewrite (GPU_delete_live ht dt)
    by (cbn [buffers]; rewrite lookup_delete_ne by exact H1; exact Ht).
  rewrite (GPU_delete_live ha da)
    by (cbn [buffers]; rewrite !lookup_delete_ne by auto; exact Ha).
  reflexivity.
Qed.

Lemma Allocated_released_freeBytes (N M : Z) w hs ht ha :
  Allocated N M w hs ht ha ->
  Z.of_nat (freeBytes (releasedGPU hs ht ha (gpu w)))
  = (Z.of_nat (freeBytes (gpu w)) + 28 * (N * M))%Z.
Proof.
  intros [_ _ _ _ _ _ _ (H1 & H2 & H3) _ (ds & Hs & Ls) (dt & Ht & Lt) (da & Ha & La)].
  rewrite (releasedGPU_freeBytes_exact hs ht ha ds dt da) by assumption. lia.
Qed.

Lemma allocatedGPU_freeBytes (N M : Z) g :
  (0 <= N)%Z -> (0 <= M)%Z ->
  (28 * (N * M) <= Z.of_nat (freeBytes g))%Z ->
  Z.of_nat (freeBytes (allocatedGPU N M g)) = (Z.of_nat (freeBytes g) - 28 * (N * M))%Z.
Proof.
  intros HN HM Hfree. unfold allocatedGPU, GPU_alloc. cbn [freeBytes].
  rewrite length_from_list, length_concat_ageRows, !length_zeros.
  unfold Float32.BYTES_PER_ELEMENT. nia.
Qed.

Lemma allocatedGPU_lookup_other (N M : Z) g (h : nat) :
  h <> nextHandle g -> h <> S (nextHandle g) -> h <> S (S (nextHandle g)) ->
  buffers (allocatedGPU N M g) !! h = buffers g !! h.
Proof.
  intros H1 H2 H3. unfold allocatedGPU. cbv zeta.
  rewrite !GPU_alloc_lookup. cbn [nextHandle GPU_alloc].
  repeat case_decide; congruence.
Qed.

(** X4: [_deleteTransformFeedback()] on an allocated layer returns
    normally, deletes the three buffers of the layer and returns exactly
    their memory, 28 bytes per particle and age; it touches no other buffer
    and leaves the handle counter and [numInstances] as they were. *)
Theorem deleteTransformFeedback_releases_exactly (N M : Z) w hs ht ha :
  Allocated N M w hs ht ha ->
  exists w1,
    _deleteTransformFeedback w = (Normal tt, w1)
    /\ Z.of_nat (freeBytes (gpu w1)) = (Z.of_nat (freeBytes (gpu w)) + 28 * (N * M))%Z
    /\ nextHandle (gpu w1) = nextHandle (gpu w)
    /\ buffers (gpu w1) !! hs = None
    /\ buffers (gpu w1) !! ht = None
    /\ buffers (gpu w1) !! ha = None
    /\ (forall h, h <> hs -> h <> ht -> h <> ha ->
          buffers (gpu w1) !! h = buffers (gpu w) !! h)
    /\ numInstances (state w1) = Some (N * M)%Z.
Proof.
  intros HA.
  destruct (Allocated_binding _ _ _ _ _ _ HA) as (tr & _ & _ & Htr & _).
  pose proof HA as [A1 A2 _ A4 A5 A6 _ _ _ _ _ _].
  exists (afterSetState w (releasedGPU hs ht ha (gpu w)) (releasedState (state w))).
  split; [by eapply deleteTransformFeedback_ok |]. cbn [gpu state withGPUState afterSetState].
  split; [by eapply Allocated_released_freeBytes |].
  split; [apply releasedGPU_nextHandle |].
  split; [rewrite releasedGPU_lookup; case_decide; [reflexivity | exfalso; tauto] |].
  split; [rewrite releasedGPU_lookup; case_decide; [reflexivity | exfalso; tauto] |].
  split; [rewrite releasedGPU_lookup; case_decide; [reflexivity | exfalso; tauto] |].
  split; [| exact A2].
  intros h H1 H2 H3. rewrite releasedGPU_lookup.
  case_decide; [exfalso; tauto | reflexivity].
Qed.

(** X5: setup followed by release leaves nothing behind. On a layer that
    is not initialized, in a store that has no live buffer at or above its
    next handle, with numParticles and maxAge in [0, 2^32 - 1] and
    28 * numParticles * maxAge bytes free, [_setupTransformFeedback()] and
    then [_deleteTransformFeedback()] both return normally; afterwards the
    live buffers are exactly those there were before, with their contents,
    and the free memory is what it was; only the handle counter has
    advanced, by three. *)
Theorem setup_then_delete_restores props w :
  let N := numParticles props in
  let M := maxAge props in
  initialized (state w) = false ->
  GPU_wf (gpu w) ->
  (0 <= N <= 2 ^ 32 - 1)%Z ->
  (0 <= M <= 2 ^ 32 - 1)%Z ->
  (28 * (N * M) <= Z.of_nat (freeBytes (gpu w)))%Z ->
  exists w1 w2,
    _setupTransformFeedback props w = (Normal tt, w1)
    /\ _deleteTransformFeedback w1 = (Normal tt, w2)
    /\ buffers (gpu w2) = buffers (gpu w)
    /\ freeBytes (gpu w2) = freeBytes (gpu w)
    /\ nextHandle (gpu w2) = 3 + nextHandle (gpu w).
Proof.
  intros N M Hi Hwf HN HM Hfree.
  pose proof (setup_fresh props w Hi HN HM Hfree) as Hsetup. fold N M in Hsetup.
  pose proof (allocated_Allocated N M w (gpu w) ltac:(lia) ltac:(lia)) as HA.
  set (w1 := afterSetState w (allocatedGPU N M (gpu w))
               (allocatedState N M (nextHandle (gpu w)))) in *.
  set (h := nextHandle (gpu w)) in *.
  destruct (allocatedGPU_lookups N M (gpu w)) as (_ & _ & _ & Hnext & _).
  exists w1, (afterSetState w1 (releasedGPU h (S h) (S (S h)) (gpu w1))
                (releasedState (state w1))).
  split; [exact Hsetup |].
  split; [by eapply deleteTransformFeedback_ok |].
  cbn [gpu withGPUState afterSetState]. split; [| split].
  - apply map_eq. intros h'. rewrite releasedGPU_lookup. case_decide as Hd.
    + symmetry. apply Hwf. fold h. lia.
    + unfold w1. cbn [gpu withGPUState afterSetState].
      apply allocatedGPU_lookup_other; fold h; intros ->; tauto.
  - apply Nat2Z.inj. rewrite (Allocated_released_freeBytes N M w1) by exact HA.
    unfold w1. cbn [gpu withGPUState afterSetState].
    rewrite allocatedGPU_freeBytes by (fold N M; lia). lia.
  - rewrite releasedGPU_nextHandle. unfold w1. cbn [gpu withGPUState afterSetState].
    rewrite Hnext. fold h. lia.
Qed.

(** ** Activation and reconfiguration *)

Lemma new_Buffer_fail (data : list byte) w :
  freeBytes (gpu w) < length data ->
  new_Buffer data w = (Throw OutOfMemory, w).
Proof.
  intros H. unfold new_Buffer, bind, getGPU.
  destruct (Nat.leb_spec (length data) (freeBytes (gpu w))); [lia | reflexivity].
Qed.

Lemma allocated_world_facts (N M : Z) w g :
  (0 <= N)%Z -> (0 <= M)%Z ->
  (28 * (N * M) <= Z.of_nat (freeBytes g))%Z ->
  let h := nextHandle g in
  let w' := afterSetState w (allocatedGPU N M g) (allocatedState N M h) in
  Allocated N M w' h (S h) (S (S h))
  /\ currentBinding (state w') = Some (mkBinding h (S h))
  /\ buffers (gpu w') !! h = Some (Float32.zeros (Z.to_nat (N * M * 3)))
  /\ buffers (gpu w') !! S h = Some (Float32.zeros (Z.to_nat (N * M * 3)))
  /\ Z.of_nat (freeBytes (gpu w')) = (Z.of_nat (freeBytes g) - 28 * (N * M))%Z
  /\ (forall h', h' < h -> buffers (gpu w') !! h' = buffers g !! h').
Proof.
  intros HN HM Hfree h w'.
  destruct (allocatedGPU_lookups N M g) as (Hs & Ht & _ & _ & Hold).
  split; [by apply allocated_Allocated |].
  split; [reflexivity |].
  split; [exact Hs |]. split; [exact Ht |].
  split; [by apply allocatedGPU_freeBytes | exact Hold].
Qed.

(** X6: activation of a layer that is not initialized returns normally
    when 28 bytes per particle and age are free: the layer is allocated
    with three fresh consecutive handles, both position buffers are
    zero-filled, the transform reads the source and writes the target
    buffer, exactly 28*N*M bytes are taken and no earlier buffer is
    touched. *)
Theorem activation_allocates_zeroed props w :
  let N := numParticles props in
  let M := maxAge props in
  let h := nextHandle (gpu w) in
  initialized (state w) = false ->
  (0 <= N <= 2 ^ 32 - 1)%Z ->
  (0 <= M <= 2 ^ 32 - 1)%Z ->
  (28 * (N * M) <= Z.of_nat (freeBytes (gpu w)))%Z ->
  exists w',
    initializeState props w = (Normal tt, w')
    /\ Allocated N M w' h (S h) (S (S h))
    /\ currentBinding (state w') = Some (mkBinding h (S h))
    /\ buffers (gpu w') !! h = Some (Float32.zeros (Z.to_nat (N * M * 3)))
    /\ buffers (gpu w') !! S h = Some (Float32.zeros (Z.to_nat (N * M * 3)))
    /\ Z.of_nat (freeBytes (gpu w'))
       = (Z.of_nat (freeBytes (gpu w)) - 28 * (N * M))%Z
    /\ (forall h', h' < h -> buffers (gpu w') !! h' = buffers (gpu w) !! h').
Proof.
  intros N M h Hi HN HM Hfree.
  eexists. split; [by apply setup_fresh |].
  apply allocated_world_facts; lia.
Qed.

(** X7: a configuration update that changes [numParticles] or [maxAge]
    on an allocated layer discards all particle history: the three old
    buffers are released, the layer is allocated afresh for the new
    sizes with zero-filled position buffers and the transform back at its
    first binding; the memory of the old buffers counts as available to
    the new ones. *)
Theorem reconfigure_resets (N M : Z) props oldProps w hs ht ha :
  let N' := numParticles props in
  let M' := maxAge props in
  let h := nextHandle (gpu w) in
  Allocated N M w hs ht ha ->
  N' <> numParticles oldProps \/ M' <> maxAge oldProps ->
  (0 <= N' <= 2 ^ 32 - 1)%Z ->
  (0 <= M' <= 2 ^ 32 - 1)%Z ->
  (28 * (N' * M') <= Z.of_nat (freeBytes (gpu w)) + 28 * (N * M))%Z ->
  exists w',
    updateState props oldProps w = (Normal tt, w')
    /\ Allocated N' M' w' h (S h) (S (S h))
    /\ currentBinding (state w') = Some (mkBinding h (S h))
    /\ buffers (gpu w') !! hs = None
    /\ buffers (gpu w') !! ht = None
    /\ buffers (gpu w') !! ha = None
    /\ buffers (gpu w') !! h = Some (Float32.zeros (Z.to_nat (N' * M' * 3)))
    /\ buffers (gpu w') !! S h = Some (Float32.zeros (Z.to_nat (N' * M' * 3)))
    /\ Z.of_nat (freeBytes (gpu w'))
       = (Z.of_nat (freeBytes (gpu w)) + 28 * (N * M) - 28 * (N' * M'))%Z.
Proof.
  intros N' M' h HA Hchg HN HM Hfree.
  destruct (Allocated_binding _ _ _ _ _ _ HA) as (tr & _ & _ & Htr & _).
  pose proof HA as [A1 _ _ A4 A5 A6 _ _ (Hh1 & Hh2 & Hh3) _ _ _].
  pose proof (Allocated_released_freeBytes N M w hs ht ha HA) as Hrel.
  set (g := releasedGPU hs ht ha (gpu w)) in *.
  assert (Hnext : nextHandle g = h) by apply releasedGPU_nextHandle.
  exists (afterSetState w (allocatedGPU N' M' g) (allocatedState N' M' h)).
  split.
  { unfold updateState.
    assert (Hc : (negb (N' =? numParticles oldProps)%Z
                  || negb (M' =? maxAge oldProps)%Z) = true).
    { destruct Hchg as [Hc | Hc]; apply Z.eqb_neq in Hc; fold N' M';
        rewrite Hc; [reflexivity | apply orb_true_r]. }
    fold N' M'. rewrite Hc.
    unfold _setupTransformFeedback.
    unfold bind at 1. unfold getState at 1. rewrite A1.
    erewrite bind_Normal by (by eapply deleteTransformFeedback_ok).
    rewrite allocate_ok; cbn [gpu withGPUState afterSetState]; fold g N' M'; try lia.
    by rewrite Hnext. }
  destruct (allocated_world_facts N' M' w g ltac:(lia) ltac:(lia) ltac:(lia))
    as (F1 & F2 & F3 & F4 & F5 & F6).
  rewrite Hnext in F1, F2, F3, F4, F5, F6.
  split; [exact F1 |]. split; [exact F2 |].
  assert (Hdead : forall x, x < h -> x = hs \/ x = ht \/ x = ha ->
    buffers (gpu (afterSetState w (allocatedGPU N' M' g) (allocatedState N' M' h))) !! x
    = None).
  { intros x Hx Hd. rewrite F6 by exact Hx. unfold g. rewrite releasedGPU_lookup.
    case_decide; [reflexivity | tauto]. }
  split; [apply Hdead; [exact Hh1 | tauto] |].
  split; [apply Hdead; [exact Hh2 | tauto] |].
  split; [apply Hdead; [exact Hh3 | tauto] |].
  split; [exact F3 |]. split; [exact F4 |].
  rewrite F5. lia.
Qed.

(** X8: after teardown an allocated layer cannot be set up again: because
    teardown leaves [initialized] true with the buffers undefined, setup
    calls the release routine first and throws a TypeError, for whatever
    props, leaving the world as teardown left it. *)
Theorem setup_after_teardown_throws (N M : Z) w hs ht ha :
  Allocated N M w hs ht ha ->
  exists w1,
    finalizeState w = (Normal tt, w1)
    /\ forall props : @Props Texture,
         _setupTransformFeedback props w1 = (Throw TypeError, w1)
         /\ initializeState props w1 = (Throw TypeError, w1).
Proof.
  intros HA.
  destruct (Allocated_binding _ _ _ _ _ _ HA) as (tr & _ & _ & Htr & _).
  destruct HA as [A1 _ _ A4 A5 A6 _ _ _ _ _ _].
  exists (afterSetState w (releasedGPU hs ht ha (gpu w)) (releasedState (state w))).
  split; [by eapply deleteTransformFeedback_ok |].
  intros props.
  assert (H : _setupTransformFeedback props
                (afterSetState w (releasedGPU hs ht ha (gpu w)) (releasedState (state w)))
              = (Throw TypeError,
                 afterSetState w (releasedGPU hs ht ha (gpu w)) (releasedState (state w)))).
  { unfold _setupTransformFeedback. unfold bind at 1. unfold getState at 1.
    cbn [state withGPUState afterSetState releasedState initialized].
    unfold bind. by rewrite deleteTransformFeedback_undefined. }
  split; exact H.
Qed.

(** X9: a negative product [numParticles * maxAge] makes setup of a layer
    that is not initialized throw a RangeError at the first typed array,
    before anything is allocated: the world is unchanged. *)
Theorem setup_rejects_negative_size props w :
  initialized (state w) = false ->
  (numParticles props * maxAge props < 0)%Z ->
  _setupTransformFeedback props w = (Throw RangeError, w).
Proof.
  intros Hi Hneg. unfold _setupTransformFeedback.
  unfold bind at 1. unfold getState at 1. rewrite Hi.
  unfold bind at 1. unfold ret at 1.
  unfold _setupTransformFeedback_allocate. unfold bind at 1.
  unfold new_Float32Array.
  destruct (Z.ltb_spec (numParticles props * maxAge props * 3) 0); [reflexivity | lia].
Qed.

(** X10: when the memory suffices for the two position buffers but not for
    the age buffer, setup of a layer that is not initialized throws
    OutOfMemory at the third allocation; the layer state is unchanged, and
    the two position buffers just created stay live, unreferenced, with
    their 24*N*M bytes taken. *)
Theorem failed_age_allocation_leaks props w :
  let N := numParticles props in
  let M := maxAge props in
  let h := nextHandle (gpu w) in
  initialized (state w) = false ->
  (0 <= N <= 2 ^ 32 - 1)%Z ->
  (0 <= M <= 2 ^ 32 - 1)%Z ->
  (24 * (N * M) <= Z.of_nat (freeBytes (gpu w)) < 28 * (N * M))%Z ->
  exists w',
    _setupTransformFeedback props w = (Throw OutOfMemory, w')
    /\ state w' = state w
    /\ buffers (gpu w') !! h = Some (Float32.zeros (Z.to_nat (N * M * 3)))
    /\ buffers (gpu w') !! S h = Some (Float32.zeros (Z.to_nat (N * M * 3)))
    /\ nextHandle (gpu w') = S (S h)
    /\ Z.of_nat (freeBytes (gpu w'))
       = (Z.of_nat (freeBytes (gpu w)) - 24 * (N * M))%Z.
Proof.
  intros N M h Hi HN HM Hfree.
  set (z := Float32.zeros (Z.to_nat (N * M * 3))).
  assert (Hz : length z = Z.to_nat (12 * (N * M)))
    by (unfold z; rewrite length_zeros; unfold Float32.BYTES_PER_ELEMENT; lia).
  exists (withGPUState w (GPU_alloc z (GPU_alloc z (gpu w))) (state w)).
  split.
  { unfold _setupTransformFeedback.
    unfold bind at 1. unfold getState at 1. rewrite Hi.
    unfold bind at 1. unfold ret at 1.
    unfold _setupTransformFeedback_allocate. fold N M.
    erewrite bind_Normal by (apply new_Float32Array_ok; lia). fold z.
    erewrite bind_Normal by (apply new_Buffer_ok; lia).
    erewrite bind_Normal by (apply new_Float32Array_ok; lia). fold z.
    erewrite bind_Normal
      by (apply new_Buffer_ok; cbn [gpu withGPUState afterSetState GPU_alloc freeBytes]; lia).
    erewrite bind_Normal by (apply agesArray_ok; assumption).
    unfold bind. rewrite new_Buffer_fail; [reflexivity |].
    cbn [gpu withGPUState afterSetState GPU_alloc freeBytes].
    rewrite length_from_list, length_concat_ageRows.
    unfold Float32.BYTES_PER_ELEMENT. fold N M. nia. }
  cbn [gpu state withGPUState afterSetState]. split; [reflexivity |].
  rewrite !GPU_alloc_lookup. cbn [nextHandle GPU_alloc freeBytes]. fold h.
  split; [repeat case_decide; try lia; reflexivity |].
  split; [repeat case_decide; try lia; reflexivity |].
  split; [reflexivity | lia].
Qed.

(** ** Two frames *)

Lemma feedbackOutput_prefix (u : Uniforms) (n : nat) (src : list byte) :
  feedbackOutput vs u n (take (VEC3_BYTES * n) src) = feedbackOutput vs u n src.
Proof.
  unfold feedbackOutput. rewrite !flat_map_concat_map. f_equal.
  apply map_ext_in. intros id Hid. apply in_seq in Hid. do 2 f_equal.
  rewrite !take_drop_commute, take_take. do 2 f_equal. unfold VEC3_BYTES. lia.
Qed.

(** One pass from an allocated layer whose current binding reads buffer
    [s] (data [ds]) and writes buffer [t] (data [dt]). *)
Lemma pass_explicit props ctx img w hs ht ha s t (ds dt : list byte) :
  let N := numParticles props in
  let M := maxAge props in
  let n := Z.to_nat N in
  let m := Z.to_nat M in
  let u := frameUniforms img props ctx (randomSource w (randomDraws w)) in
  let ds' := take (VEC3_BYTES * n) ds ++ take (VEC3_BYTES * n * (m - 1)) dt in
  (1 <= M)%Z ->
  image props = Some img ->
  Allocated N M w hs ht ha ->
  currentBinding (state w) = Some (mkBinding s t) ->
  buffers (gpu w) !! s = Some ds ->
  buffers (gpu w) !! t = Some dt ->
  exists w',
    _runTransformFeedback vs props ctx w = (Normal tt, w')
    /\ Allocated N M w' hs ht ha
    /\ currentBinding (state w') = Some (mkBinding t s)
    /\ buffers (gpu w') !! s = Some ds'
    /\ buffers (gpu w') !! t = Some (feedbackOutput vs u (n * m) ds')
    /\ randomSource w' = randomSource w
    /\ randomDraws w' = S (randomDraws w)
    /\ kernelLog w' = u :: kernelLog w.
Proof.
  intros N M n m u ds' HM Himg HA Hcur Hs Ht.
  destruct (Allocated_binding _ _ _ _ _ _ HA)
    as (tr & s0 & t0 & Htr & Hbs & Hb & Hb' & Hc & Hst).
  unfold currentBinding in Hcur. rewrite Htr, Hb in Hcur.
  injection Hcur as -> ->.
  destruct (Allocated_buffers _ _ _ _ _ _ s t HA Hst)
    as (ds0 & dt0 & Hs0 & Ht0 & Lds & Ldt & Hne & Hsa & Hta).
  rewrite Hs in Hs0. injection Hs0 as <-.
  rewrite Ht in Ht0. injection Ht0 as <-.
  assert (HN : (0 <= N)%Z) by nia.
  destruct (runTransformFeedback_preserves vs props ctx w hs ht ha HM HA)
    as (w' & Hrun & HA' & _).
  exists w'. split; [exact Hrun |]. split; [exact HA' |].
  rewrite (runTransformFeedback_run vs props ctx w img tr (mkBinding s t)) in Hrun
    by assumption.
  injection Hrun as <-.
  rewrite (afterRun_Allocated vs props ctx img w hs ht ha tr s t ds dt) by assumption.
  fold N M. rewrite (agedSource_bulk N M ds dt) by assumption. fold n m ds' u.
  cbn [gpu state buffers randomSource randomDraws kernelLog].
  split; [unfold currentBinding, swappedState; cbn [transform bindings currentIndex];
          exact Hb' |].
  split; [rewrite lookup_insert_ne by auto; apply lookup_insert_eq |].
  split; [rewrite lookup_insert_eq; do 2 f_equal; unfold N, M, n, m; nia |].
  repeat split.
Qed.

(** X11: two consecutive passes keep the trail. With maxAge >= 2, after
    two frames the transform reads and writes the same buffers as before
    the first; the buffer written in the first frame now holds, in band 0,
    the positions advected in the first frame, in band 1 the positions
    they were advected from, and in every band a+2 what its own band a
    held before; the other buffer holds the second frame's output. The
    two kernel runs received consecutive numbers of the random source as
    seeds. *)
Theorem two_passes_keep_history props ctx1 ctx2 img w hs ht ha s t (ds dt : list byte) :
  let N := numParticles props in
  let M := maxAge props in
  let n := Z.to_nat N in
  let m := Z.to_nat M in
  let u1 := frameUniforms img props ctx1 (randomSource w (randomDraws w)) in
  let u2 := frameUniforms img props ctx2 (randomSource w (S (randomDraws w))) in
  (2 <= M)%Z ->
  image props = Some img ->
  Allocated N M w hs ht ha ->
  currentBinding (state w) = Some (mkBinding s t) ->
  buffers (gpu w) !! s = Some ds ->
  buffers (gpu w) !! t = Some dt ->
  exists w2 ds2 dt2,
    (_runTransformFeedback vs props ctx1 ;;; _runTransformFeedback vs props ctx2) w
      = (Normal tt, w2)
    /\ currentBinding (state w2) = Some (mkBinding s t)
    /\ buffers (gpu w2) !! s = Some ds2
    /\ buffers (gpu w2) !! t = Some dt2
    /\ band n 0 dt2 = feedbackOutput vs u1 n ds
    /\ band n 1 dt2 = band n 0 ds
    /\ (forall a, a + 3 <= m -> band n (a + 2) dt2 = band n a dt)
    /\ band n 0 ds2 = feedbackOutput vs u2 n dt2
    /\ kernelLog w2 = u2 :: u1 :: kernelLog w
    /\ u_seed u1 = randomSource w (randomDraws w)
    /\ u_seed u2 = randomSource w (S (randomDraws w)).
Proof.
  intros N M n m u1 u2 HM Himg HA Hcur Hs Ht.
  destruct (Allocated_binding _ _ _ _ _ _ HA)
    as (tr & s0 & t0 & Htr & Hbs & Hb & Hb' & Hc & Hst).
  assert (Hst' : (s = hs /\ t = ht) \/ (s = ht /\ t = hs)).
  { unfold currentBinding in Hcur. rewrite Htr, Hb in Hcur.
    by injection Hcur as -> ->. }
  destruct (Allocated_buffers _ _ _ _ _ _ s t HA Hst')
    as (ds0 & dt0 & Hs0 & Ht0 & Lds & Ldt & _).
  rewrite Hs in Hs0. injection Hs0 as <-.
  rewrite Ht in Ht0. injection Ht0 as <-.
  assert (HN : (0 <= N)%Z) by nia.
  assert (Hlds : length ds = VEC3_BYTES * n * m) by (unfold VEC3_BYTES; nia).
  assert (Hldt : length dt = VEC3_BYTES * n * m) by (unfold VEC3_BYTES; nia).
  assert (Hm : 2 <= m) by lia.
  destruct (pass_explicit props ctx1 img w hs ht ha s t ds dt
              ltac:(lia) Himg HA Hcur Hs Ht)
    as (w1 & Hrun1 & HA1 & Hcur1 & Hs1 & Ht1 & Hrs1 & Hrd1 & Hlog1).
  fold N M n m u1 in Hs1, Ht1, Hlog1, HA1.
  set (ds1 := take (VEC3_BYTES * n) ds ++ take (VEC3_BYTES * n * (m - 1)) dt) in *.
  set (F1 := feedbackOutput vs u1 (n * m) ds1) in *.
  destruct (pass_explicit props ctx2 img w1 hs ht ha t s F1 ds1
              ltac:(lia) Himg HA1 Hcur1 Ht1 Hs1)
    as (w2 & Hrun2 & HA2 & Hcur2 & Ht2 & Hs2 & _ & _ & Hlog2).
  rewrite Hrs1, Hrd1 in Hs2, Hlog2. fold N M n m u2 in Ht2, Hs2, Hlog2.
  set (dt2 := take (VEC3_BYTES * n) F1 ++ take (VEC3_BYTES * n * (m - 1)) ds1) in *.
  assert (HlF1 : length (take (VEC3_BYTES * n) F1) = VEC3_BYTES * n).
  { rewrite length_take. unfold F1. rewrite length_feedbackOutput. nia. }
  assert (HlA : length (take (VEC3_BYTES * n) ds) = VEC3_BYTES * n)
    by (rewrite length_take; nia).
  exists w2, (feedbackOutput vs u2 (n * m) dt2), dt2.
  split; [by erewrite bind_Normal by exact Hrun1 |].
  split; [exact Hcur2 |]. split; [exact Hs2 |]. split; [exact Ht2 |].
  split.
  { unfold band, dt2. rewrite !Nat.mul_0_l, !drop_0.
    rewrite take_app_length' by (symmetry; exact HlF1).
    unfold F1. replace (n * m) with (n + n * (m - 1)) by nia.
    rewrite feedbackOutput_take. rewrite <- (feedbackOutput_prefix u1 n ds1).
    unfold ds1. rewrite take_app_length' by (symmetry; exact HlA).
    apply feedbackOutput_prefix. }
  split.
  { unfold dt2. rewrite band_succ_app by exact HlF1.
    rewrite band_take by nia.
    unfold band, ds1. rewrite !Nat.mul_0_l, !drop_0.
    by rewrite take_app_length' by (symmetry; exact HlA). }
  split.
  { intros a Ha. unfold dt2. replace (a + 2) with (S (S a)) by lia.
    rewrite band_succ_app by exact HlF1.
    rewrite band_take by nia.
    unfold ds1. rewrite band_succ_app by exact HlA.
    apply band_take. nia. }
  split.
  { unfold band. rewrite !Nat.mul_0_l, !drop_0.
    replace (n * m) with (n + n * (m - 1)) by nia.
    apply feedbackOutput_take. }
  split; [by rewrite Hlog2, Hlog1 |].
  split; reflexivity.
Qed.

(** ** Clearing, again *)

(** X12: [clear()] is idempotent on an allocated layer: a second clear
    returns normally and leaves the world exactly as the first left it. *)
Theorem clear_twice_is_clear (N M : Z) w hs ht ha :
  Allocated N M w hs ht ha ->
  exists w1,
    clear w = (Normal tt, w1)
    /\ clear w1 = (Normal tt, w1).
Proof.
  intros HA.
  destruct (clear_preserves N M w hs ht ha HA) as (w1 & Hc1 & HA1 & _).
  exists w1. split; [exact Hc1 |].
  rewrite (clear_Allocated N M w1 hs ht ha HA1).
  rewrite (clear_Allocated N M w hs ht ha HA) in Hc1. injection Hc1 as <-.
  cbn [gpu state buffers nextHandle freeBytes needsRedraw randomSource randomDraws
       kernelLog].
  do 3 f_equal. apply map_eq. intros h.
  rewrite !lookup_insert. repeat case_decide; reflexivity.
Qed.

Lemma xy_is_DROP_POSITION_zeros (len i : nat) :
  3 * i + 1 < len -> Shaders.xy_is_DROP_POSITION (Float32.zeros len) i = true.
Proof.
  intros H. unfold Shaders.xy_is_DROP_POSITION.
  rewrite !f32_at_zeros by lia. reflexivity.
Qed.

Lemma agedSource_zeros (n m : nat) :
  1 <= m ->
  take (VEC3_BYTES * n) (Float32.zeros (3 * (n * m)))
  ++ take (VEC3_BYTES * n * (m - 1)) (Float32.zeros (3 * (n * m)))
  = Float32.zeros (3 * (n * m)).
Proof.
  intros Hm. unfold Float32.zeros. rewrite !take_replicate, <- replicate_add.
  f_equal. unfold VEC3_BYTES, Float32.BYTES_PER_ELEMENT.
  assert (n + n * (m - 1) = n * m) by nia. lia.
Qed.

(** X13: the first [draw()] after [clear()] shows nothing of the trails,
    whether or not it animates and whether or not an image is bound. The
    draw call returns normally and binds the layer's [sourcePositions],
    [targetPositions] and [ages] buffers as the instance attributes; when
    it runs a pass first, the pass's source buffer still holds only zeros
    after the aging copy, and that buffer is one of the two bound position
    attributes, so the injected shader code marks every one of the N*M
    instances as dropped and the fragment shader discards it. *)
Theorem first_draw_after_clear_discards_all props ctx w hs ht ha :
  let N := numParticles props in
  let M := maxAge props in
  (1 <= M)%Z ->
  Allocated N M w hs ht ha ->
  exists w1 w2 src tgt,
    clear w = (Normal tt, w1)
    /\ draw vs props ctx w1
       = (Normal (mkAttributes (Some hs) (Some ht) (Some ha)), w2)
    /\ buffers (gpu w2) !! hs = Some src
    /\ buffers (gpu w2) !! ht = Some tgt
    /\ (forall i, (Z.of_nat i < N * M)%Z -> Shaders.dropped src tgt i = true)
    /\ (animate props = false \/ image props = None -> w2 = w1).
Proof.
  intros N M HM HA.
  destruct (clear_preserves N M w hs ht ha HA) as (w1 & Hc & HA1 & _).
  pose proof Hc as Hw1. rewrite (clear_Allocated N M w hs ht ha HA) in Hw1.
  injection Hw1 as Hw1.
  pose proof HA1 as [_ _ _ A4 A5 A6 _ (Hd1 & Hd2 & Hd3) _ _ _ _].
  assert (HN : (0 <= N)%Z).
  { destruct HA as [_ _ _ _ _ _ _ _ _ (d & _ & Hl) _ _]. nia. }
  set (z := Float32.zeros (Z.to_nat (N * M * 3))) in *.
  assert (Hzs : buffers (gpu w1) !! hs = Some z).
  { rewrite <- Hw1. cbn [gpu buffers].
    rewrite lookup_insert_ne by auto. apply lookup_insert_eq. }
  assert (Hzt : buffers (gpu w1) !! ht = Some z).
  { rewrite <- Hw1. cbn [gpu buffers]. apply lookup_insert_eq. }
  assert (Hdz : forall other i, (Z.of_nat i < N * M)%Z ->
            Shaders.dropped z other i = true /\ Shaders.dropped other z i = true).
  { intros other i Hi. unfold Shaders.dropped, z.
    rewrite xy_is_DROP_POSITION_zeros by lia.
    split; [reflexivity | apply orb_true_r]. }
  assert (Hskip : forall w2, (if animate props
                              then _runTransformFeedback vs props ctx
                              else ret tt) w1 = (Normal tt, w2) ->
            draw vs props ctx w1
            = (Normal (mkAttributes (Some hs) (Some ht) (Some ha)), w2)).
  { intros w2 H. unfold draw. unfold bind at 1. unfold getState at 1.
    erewrite bind_Normal by exact H. by rewrite A4, A5, A6. }
  destruct (animate props) eqn:Han; [destruct (image props) as [img |] eqn:Himg |].
  - destruct (Allocated_binding _ _ _ _ _ _ HA1)
      as (tr & s & t & Htr & Hbs & Hb & Hb' & Hcnt & Hst).
    assert (Hs : buffers (gpu w1) !! s = Some z)
      by (destruct Hst as [[-> ->] | [-> ->]]; assumption).
    assert (Ht : buffers (gpu w1) !! t = Some z)
      by (destruct Hst as [[-> ->] | [-> ->]]; assumption).
    assert (Hne : s <> t) by (destruct Hst as [[-> ->] | [-> ->]]; auto).
    assert (Hlz : Z.of_nat (length z) = (12 * (N * M))%Z).
    { unfold z. rewrite length_zeros. unfold Float32.BYTES_PER_ELEMENT. nia. }
    pose proof (afterRun_Allocated vs props ctx img w1 hs ht ha tr s t z z
                  HM HA1 Htr Hcnt Hst Hs Ht) as Hrun.
    cbv zeta in Hrun. fold N M in Hrun.
    rewrite (agedSource_bulk N M z z HN HM Hlz Hlz) in Hrun.
    assert (Hzz : take (VEC3_BYTES * Z.to_nat N) z
                  ++ take (VEC3_BYTES * Z.to_nat N * (Z.to_nat M - 1)) z = z).
    { unfold z. replace (Z.to_nat (N * M * 3)) with (3 * (Z.to_nat N * Z.to_nat M))
        by nia. apply agedSource_zeros. lia. }
    rewrite Hzz in Hrun.
    set (out := feedbackOutput vs _ _ z) in Hrun.
    exists w1, (afterRun vs props ctx img tr (mkBinding s t) w1).
    destruct Hst as [[-> ->] | [-> ->]].
    + exists z, out. split; [exact Hc |].
      split; [apply Hskip; by apply runTransformFeedback_run |].
      rewrite Hrun. cbn [gpu buffers].
      split; [rewrite lookup_insert_ne by auto; apply lookup_insert_eq |].
      split; [apply lookup_insert_eq |].
      split; [intros i Hi; by apply Hdz | intros [? | ?]; congruence].
    + exists out, z. split; [exact Hc |].
      split; [apply Hskip; by apply runTransformFeedback_run |].
      rewrite Hrun. cbn [gpu buffers].
      split; [apply lookup_insert_eq |].
      split; [rewrite lookup_insert_ne by auto; apply lookup_insert_eq |].
      split; [intros i Hi; by apply Hdz | intros [? | ?]; congruence].
  - exists w1, w1, z, z. split; [exact Hc |].
    split; [apply Hskip; by apply runTransformFeedback_skip |].
    split; [exact Hzs |]. split; [exact Hzt |].
    split; [intros i Hi; by apply Hdz | reflexivity].
  - exists w1, w1, z, z. split; [exact Hc |].
    split; [by apply Hskip |].
    split; [exact Hzs |]. split; [exact Hzt |].
    split; [intros i Hi; by apply Hdz | reflexivity].
Qed.

End Outcomes.

(** * Further properties of the viewport uniforms *)

Section MoreViewport.
Local Open Scope R_scope.

(** X15: the bounding box handed to the kernel is [viewport.getBounds()]
    with only the latitudes clamped: west and east pass through, south is
    raised to at least -85.051129, north lowered to at most 85.051129, and
    latitudes already inside that range are unchanged. *)
Theorem viewportBounds_clamps_latitudes (vp : Viewport) :
  let '(west0, south0, east0, north0) := getBounds vp in
  let '(west, south, east, north) := viewportBounds vp in
  west = west0 /\ east = east0
  /\ -85.051129 <= south /\ south0 <= south
  /\ north <= 85.051129 /\ north <= north0
  /\ (-85.051129 <= south0 -> south = south0)
  /\ (north0 <= 85.051129 -> north = north0).
Proof.
  unfold viewportBounds. destruct (getBounds vp) as [[[w0 s0] e0] n0].
  pose proof (Rmax_l s0 (-85.051129)). pose proof (Rmax_r s0 (-85.051129)).
  pose proof (Rmin_l n0 85.051129). pose proof (Rmin_r n0 85.051129).
  repeat split; try assumption.
  - intros Hs. by apply Rmax_left.
  - intros Hn. by apply Rmin_left.
Qed.


End MoreViewport.

(** * Further worked examples *)

Lemma calls_keep_buffer_shapes_example :
  sameShape (gpu exampleWorld)
    (gpu (snd (perform exampleShader
                 (CallStep (exampleProps 2 3 (Some tt)) exampleContext)
                 exampleWorld))).
Proof.
  apply (calls_keep_buffer_shapes exampleShader
           (CallStep (exampleProps 2 3 (Some tt)) exampleContext) exampleWorld
           (fst (perform exampleShader
                   (CallStep (exampleProps 2 3 (Some tt)) exampleContext)
                   exampleWorld))).
  - exact I.
  - apply surjective_pairing.
Defined.

Lemma step_without_transform_throws_example :
  step exampleShader (exampleProps 2 3 (Some tt)) exampleContext (freshWorld 100)
  = (Throw TypeError, freshWorld 100).
Proof.
  apply (step_without_transform_throws exampleShader (exampleProps 2 3 (Some tt))
           exampleContext tt (freshWorld 100)); reflexivity.
Defined.

Lemma clear_without_buffers_throws_example :
  clear (freshWorld 100) = (Throw TypeError, freshWorld 100).
Proof.
  apply (clear_without_buffers_throws (freshWorld 100)). reflexivity.
Defined.

Lemma deleteTransformFeedback_releases_exactly_example :
  exists w1,
    _deleteTransformFeedback exampleWorld = (Normal tt, w1)
    /\ Z.of_nat (freeBytes (gpu w1)) = 1168%Z
    /\ buffers (gpu w1) !! 0 = None
    /\ buffers (gpu w1) !! 1 = None
    /\ buffers (gpu w1) !! 2 = None.
Proof.
  destruct (deleteTransformFeedback_releases_exactly 2 3 exampleWorld 0 1 2)
    as (w1 & H1 & Hfree & _ & Hs & Ht & Ha & _).
  - exact exampleWorld_Allocated.
  - exists w1. split; [exact H1 |]. rewrite Hfree.
    split; [reflexivity |]. split; [exact Hs |]. split; [exact Ht | exact Ha].
Defined.

Lemma setup_then_delete_restores_example :
  exists w1 w2,
    _setupTransformFeedback (exampleProps 2 3 None) (freshWorld 1000)
    = (Normal tt, w1)
    /\ buffers (gpu w1) !! 0 = Some (Float32.zeros 18)
    /\ freeBytes (gpu w1) = 832
    /\ _deleteTransformFeedback w1 = (Normal tt, w2)
    /\ buffers (gpu w2) = ∅
    /\ freeBytes (gpu w2) = 1000
    /\ nextHandle (gpu w2) = 3.
Proof.
  destruct (setup_then_delete_restores (exampleProps 2 3 None) (freshWorld 1000))
    as (w1 & w2 & H1 & H2 & Hb & Hf & Hn).
  - reflexivity.
  - intros h _. reflexivity.
  - simpl. lia.
  - simpl. lia.
  - simpl. lia.
  - exists w1, w2. split; [exact H1 |].
    assert (Hw1 : snd (_setupTransformFeedback (exampleProps 2 3 None)
                         (freshWorld 1000)) = w1) by (by rewrite H1).
    rewrite <- Hw1 at 1 2.
    split; [reflexivity |]. split; [reflexivity |].
    split; [exact H2 |]. split; [exact Hb |]. split; [exact Hf | exact Hn].
Defined.

Lemma activation_allocates_zeroed_example :
  exists w',
    initializeState (exampleProps 2 3 None) (freshWorld 1000) = (Normal tt, w')
    /\ Allocated 2 3 w' 0 1 2
    /\ buffers (gpu w') !! 0 = Some (Float32.zeros 18)
    /\ Z.of_nat (freeBytes (gpu w')) = 832%Z.
Proof.
  destruct (activation_allocates_zeroed (exampleProps 2 3 None) (freshWorld 1000))
    as (w' & H1 & HA & _ & Hs & _ & Hf & _).
  - reflexivity.
  - simpl. lia.
  - simpl. lia.
  - simpl. lia.
  - exists w'. split; [exact H1 |]. split; [exact HA |].
    split; [exact Hs | exact Hf].
Defined.

Lemma reconfigure_resets_example :
  exists w',
    updateState (exampleProps 3 3 None) (exampleProps 2 3 None) exampleWorld
    = (Normal tt, w')
    /\ Allocated 3 3 w' 3 4 5
    /\ buffers (gpu w') !! 0 = None
    /\ buffers (gpu w') !! 3 = Some (Float32.zeros 27).
Proof.
  destruct (reconfigure_resets 2 3 (exampleProps 3 3 None) (exampleProps 2 3 None)
              exampleWorld 0 1 2)
    as (w' & H1 & HA & _ & H0 & _ & _ & H3 & _).
  - exact exampleWorld_Allocated.
  - left. simpl. lia.
  - simpl. lia.
  - simpl. lia.
  - simpl. lia.
  - exists w'. split; [exact H1 |]. split; [exact HA |].
    split; [exact H0 | exact H3].
Defined.

Lemma setup_after_teardown_throws_example :
  exists w1,
    finalizeState exampleWorld = (Normal tt, w1)
    /\ initializeState (exampleProps 2 3 None) w1 = (Throw TypeError, w1).
Proof.
  destruct (setup_after_teardown_throws (Texture := unit) 2 3 exampleWorld 0 1 2)
    as (w1 & H1 & H2).
  - exact exampleWorld_Allocated.
  - exists w1. split; [exact H1 | apply H2].
Defined.

Lemma setup_rejects_negative_size_example :
  _setupTransformFeedback (exampleProps (-1) 3 None) (freshWorld 1000)
  = (Throw RangeError, freshWorld 1000).
Proof.
  apply (setup_rejects_negative_size (exampleProps (-1) 3 None) (freshWorld 1000)).
  - reflexivity.
  - simpl. lia.
Defined.

Lemma failed_age_allocation_leaks_example :
  exists w',
    _setupTransformFeedback (exampleProps 2 1 None) (freshWorld 50)
    = (Throw OutOfMemory, w')
    /\ state w' = initialLayerState
    /\ buffers (gpu w') !! 0 = Some (Float32.zeros 6)
    /\ buffers (gpu w') !! 1 = Some (Float32.zeros 6)
    /\ Z.of_nat (freeBytes (gpu w')) = 2%Z.
Proof.
  destruct (failed_age_allocation_leaks (exampleProps 2 1 None) (freshWorld 50))
    as (w' & H1 & Hst & H0 & H1' & _ & Hf).
  - reflexivity.
  - simpl. lia.
  - simpl. lia.
  - simpl. lia.
  - exists w'. repeat split; assumption.
Defined.

Lemma two_passes_keep_history_example :
  exists w2 dt2,
    (_runTransformFeedback exampleShader (exampleProps 2 3 (Some tt)) exampleContext ;;;
     _runTransformFeedback exampleShader (exampleProps 2 3 (Some tt)) exampleContext)
      exampleWorld = (Normal tt, w2)
    /\ currentBinding (state w2) = Some (mkBinding 0 1)
    /\ buffers (gpu w2) !! 1 = Some dt2
    /\ band 2 1 dt2 = replicate 24 x50
    /\ band 2 2 dt2 = replicate 24 xa0.
Proof.
  destruct (two_passes_keep_history exampleShader (exampleProps 2 3 (Some tt))
              exampleContext exampleContext tt exampleWorld 0 1 2 0 1
              exampleSource exampleTarget)
    as (w2 & ds2 & dt2 & Hrun & Hcur & _ & Ht & _ & Hb1 & Hb2 & _).
  - simpl. lia.
  - reflexivity.
  - exact exampleWorld_Allocated.
  - reflexivity.
  - reflexivity.
  - reflexivity.
  - exists w2, dt2. split; [exact Hrun |]. split; [exact Hcur |].
    split; [exact Ht |]. split; [exact Hb1 |].
    apply (Hb2 0). simpl. lia.
Defined.

Lemma clear_twice_is_clear_example :
  exists w1,
    clear exampleWorld = (Normal tt, w1) /\ clear w1 = (Normal tt, w1).
Proof.
  apply (clear_twice_is_clear 2 3 exampleWorld 0 1 2). exact exampleWorld_Allocated.
Defined.

Lemma first_draw_after_clear_discards_all_example :
  exists w1 w2 src tgt,
    clear exampleWorld = (Normal tt, w1)
    /\ draw exampleShader (exampleProps 2 3 (Some tt)) exampleContext w1
       = (Normal (mkAttributes (Some 0) (Some 1) (Some 2)), w2)
    /\ buffers (gpu w2) !! 0 = Some src
    /\ buffers (gpu w2) !! 1 = Some tgt
    /\ Shaders.dropped src tgt 0 = true
    /\ Shaders.dropped src tgt 5 = true.
Proof.
  destruct (first_draw_after_clear_discards_all exampleShader
              (exampleProps 2 3 (Some tt)) exampleContext exampleWorld 0 1 2)
    as (w1 & w2 & src & tgt & H1 & H2 & Hs & Ht & Hd & _).
  - simpl. lia.
  - exact exampleWorld_Allocated.
  - exists w1, w2, src, tgt. split; [exact H1 |]. split; [exact H2 |].
    split; [exact Hs |]. split; [exact Ht |].
    split; apply Hd; simpl; lia.
Defined.

Lemma viewportBounds_clamps_latitudes_example :
  viewportBounds exampleViewport = (-60, -60, 60, 60)%R.
Proof.
  pose proof (viewportBounds_clamps_latitudes exampleViewport) as H.
  destruct (viewportBounds exampleViewport) as [[[w s] e] n].
  simpl in H. destruct H as (-> & -> & _ & _ & _ & _ & Hs & Hn).
  rewrite Hs, Hn by lra. reflexivity.
Defined.

